(** * pyliferisk: mortality tables, joint lives and commutation functions

    A shallow embedding of [pyliferisk/lifecontingencies.py] (classes
    [MortalityTable], [Pers] and [Actuarial], and the dispatching helper
    [annuity]) together with the properties
    of the commutation pipeline that are checked against it.

    Conventions of the embedding:
    - Python numbers (the [int] and [float] entries of the tables, rates and
      results) are exact rationals in canonical form ([Qc]).  A property is
      stated with the expression the source evaluates, operation by
      operation and in the order of the source, so that it reads the same
      when [+], [-], [*] and [/] are those of Python's [float].  The only
      irrational operation of the source,
      [(1+i) ** 0.5], is a section variable [pow_half].
    - Where rounding decides a question, the lines concerned are embedded a
      second time over IEEE 754 binary64 (module [Binary64]).
    - Python integers used as ages, indices and counts are [Z]; indexing a
      list with a negative integer wraps around as in Python.
    - [/] is true division, which raises [ZeroDivisionError] on a zero
      divisor.
    - A Python exception is a [Raise e] in the [result] monad. *)

From Stdlib Require Import ZArith QArith Qcanon Floats.
From stdpp Require Import base decidable option list list_numbers numbers strings gmap.

Open Scope Qc_scope.

(** ** Exceptions and the result monad *)

Inductive exn : Set :=
  | IndexError
  | ValueError
  | ZeroDivisionError
  | TypeError
  | NameError
  | AttributeError.

Inductive result (A : Type) : Type :=
  | Ok (a : A)
  | Raise (e : exn).

Arguments Ok {A} a.
Arguments Raise {A} e.

#[global] Instance exn_eq_dec : EqDecision exn.
Proof. solve_decision. Defined.

#[global] Instance result_eq_dec {A} `{EqDecision A} : EqDecision (result A).
Proof. solve_decision. Defined.

#[global] Instance result_ret : MRet result := fun _ a => Ok a.

#[global] Instance result_bind : MBind result := fun _ _ f r =>
  match r with
  | Ok a => f a
  | Raise e => Raise e
  end.

#[global] Instance result_fmap : FMap result := fun _ _ f r =>
  match r with
  | Ok a => Ok (f a)
  | Raise e => Raise e
  end.

(** [returns r] : the computation ended with a value. *)
Definition returns {A} (r : result A) : Prop := exists v, r = Ok v.

(** A [for] loop with a body that may raise: left fold in the result monad. *)
Fixpoint foldlM {A B} (f : A -> B -> result A) (a : A) (l : list B) : result A :=
  match l with
  | [] => Ok a
  | b :: l' => a' ← f a b; foldlM f a' l'
  end.

(** ** Numbers *)

(** An integer literal of the source, as a number. *)
Definition num (z : Z) : Qc := Qc_of_Z z.

(** The literal [0.5]. *)
Definition half : Qc := Q2Qc (1 # 2).

(** [a / b] : raises [ZeroDivisionError] on a zero divisor. *)
Definition py_div (a b : Qc) : result Qc :=
  if decide (b = 0) then Raise ZeroDivisionError else Ok (a / b).

(** [a ** n] for an integer exponent [n >= 0]. *)
Definition py_pow (a : Qc) (n : Z) : Qc := a ^ Z.to_nat n.

(** ** Python lists *)

Definition py_len {A} (l : list A) : Z := Z.of_nat (length l).

(** Position denoted by an index: negative indices count from the end. *)
Definition py_pos {A} (l : list A) (i : Z) : Z :=
  if decide (i < 0)%Z then (i + py_len l)%Z else i.

(** [l[i]] *)
Definition py_getitem {A} (l : list A) (i : Z) : result A :=
  let j := py_pos l i in
  if decide (j < 0)%Z then Raise IndexError
  else match l !! Z.to_nat j with
       | Some v => Ok v
       | None => Raise IndexError
       end.

(** [l[i] = v] *)
Definition py_setitem {A} (l : list A) (i : Z) (v : A) : result (list A) :=
  let j := py_pos l i in
  if decide (0 <= j < py_len l)%Z then Ok (<[Z.to_nat j := v]> l)
  else Raise IndexError.

(** [l[i:]] : a fresh list; the start is clamped to the list. *)
Definition py_slice_from {A} (l : list A) (i : Z) : list A :=
  drop (Z.to_nat (py_pos l i)) l.

(** [l[0:-1]] : everything but the last element. *)
Definition py_slice_but_last {A} (l : list A) : list A :=
  take (length l - 1) l.

(** [sum(l)] : left to right, starting from [0]. *)
Definition py_sum (l : list Qc) : Qc := foldl Qcplus 0 l.

(** [range(a, b)] *)
Definition py_range (a b : Z) : list Z := seqZ a (b - a).

(** [l.index(v)] : first position holding a value equal to [v]. *)
Definition py_index (l : list Qc) (v : Qc) : result Z :=
  match list_find (fun y => y = v) l with
  | Some (i, _) => Ok (Z.of_nat i)
  | None => Raise ValueError
  end.

(** [min(l)] *)
Definition py_min (l : list Z) : result Z :=
  match l with
  | [] => Raise ValueError
  | z :: l' => Ok (foldl Z.min z l')
  end.

(** [[v] * n] *)
Definition py_repeat {A} (v : A) (n : Z) : list A := replicate (Z.to_nat n) v.

(** ** class MortalityTable *)

Module MortalityTable.

Record inst : Type := mk {
  l_x : list Qc;
  q_x : list Qc;
  e_x : list Qc;
  perc : Qc;
  nt : option (Z * list Qc);
  w : Z
}.

(** Body of the loop over [mt[1:]] of the legacy rate table: the state is
    [(end_val, self.q_x)]. *)
Definition nt_step (perc : Qc) (st : Qc * list Qc) (val : Qc) : Qc * list Qc :=
  let '(end_val, q) := st in
  if decide (end_val < num 1000) then
    let end_val' := val * perc / num 100 in (end_val', q ++ [end_val'])
  else st.

(** The retrocompatibility branch [if nt: ...].  A legacy table [nt] is a
    non-empty list whose head is the number of leading ages without a rate;
    [None] stands for a falsy [nt] ([None] or the empty list). *)
Definition legacy_q_x (q_x : list Qc) (nt : option (Z * list Qc)) (perc : Qc)
  : list Qc :=
  match nt with
  | Some (init, vals) =>
      let q := (foldl (nt_step perc) (0, py_repeat 0 init) vals).2 in
      if decide (perc <> num 100) then q ++ [num 1000] else q
  | None => q_x
  end.

(** [self.l_x.append(self.l_x[-1] * (1 - val / 1000))] *)
Definition compound_step (l : list Qc) (val : Qc) : result (list Qc) :=
  last ← py_getitem l (-1);
  Ok (l ++ [last * (1 - val / num 1000)]).

(** [MortalityTable.__init__(self, l_x=[], q_x=[], nt=None, perc=100)] *)
Definition init (l_x q_x : list Qc) (nt : option (Z * list Qc)) (perc : Qc)
  : result inst :=
  let w0 := 0%Z in
  let q_x1 := legacy_q_x q_x nt perc in
  l_x1 ← (if decide (l_x = []) then foldlM compound_step [num 100000] q_x1
          else Ok l_x);
  last ← py_getitem l_x1 (-1);
  let l_x2 := if decide (last <> 0) then l_x1 ++ [0] else l_x1 in
  w1 ← (if decide (w0 = 0%Z) then i ← py_index l_x2 0; Ok (i - 1)%Z
        else Ok w0);
  Ok {| l_x := l_x2; q_x := q_x1; e_x := []; perc := perc; nt := nt; w := w1 |}.

(** The call [MortalityTable(l_x=l)] with the other arguments defaulted. *)
Definition of_l_x (l : list Qc) : result inst := init l [] None (num 100).

(** The call [MortalityTable(q_x=q)]. *)
Definition of_q_x (q : list Qc) : result inst := init [] q None (num 100).

End MortalityTable.

(** ** class Pers *)

Module Pers.

Record inst : Type := mk {
  l_x : list Qc;
  q_x : list Qc;
  e_x : list Qc;
  w : Z
}.

(** The attributes that [Actuarial.__init__] reads from its [pers] argument
    are also those of a [MortalityTable], which can be passed in its place. *)
Definition of_table (mt : MortalityTable.inst) : inst :=
  {| l_x := MortalityTable.l_x mt; q_x := MortalityTable.q_x mt;
     e_x := MortalityTable.e_x mt; w := MortalityTable.w mt |}.

(** The local variables [mt] and [os] of [__init__]: unbound until a loop
    body assigns them, and kept from one loop to the next. *)
Definition locals : Type := option (MortalityTable.inst * Z).

Definition read_locals (loc : locals) : result (MortalityTable.inst * Z) :=
  match loc with
  | Some v => Ok v
  | None => Raise NameError
  end.

(** Body of the loop that computes [self.w]; the state is [(self.w, locals)]. *)
Definition w_step (MortalityTable_list : list MortalityTable.inst)
    (offsets : list Z) (st : Z * locals) (i : Z) : result (Z * locals) :=
  mt ← py_getitem MortalityTable_list i;
  os ← py_getitem offsets i;
  let w' := if decide (st.1 = 0%Z) then (MortalityTable.w mt - os)%Z
            else Z.min st.1 (MortalityTable.w mt - os) in
  Ok (w', Some (mt, os)).

(** Body of [for t in range(1, len(MortalityTable_list))]: it only rebinds
    [mt] and [os]. *)
Definition rebind_step (MortalityTable_list : list MortalityTable.inst)
    (offsets : list Z) (_ : locals) (t : Z) : result locals :=
  mt ← py_getitem MortalityTable_list t;
  os ← py_getitem offsets t;
  Ok (Some (mt, os)).

(** Body of [for i in range(0, self.w)], which runs after the loop over [t]
    has ended; the state is [self.l_x]. *)
Definition l_x_step (loc : locals) (l : list Qc) (i : Z) : result (list Qc) :=
  let l1 := if decide (i < py_len l)%Z then l ++ [0] else l in
  '(mt, os) ← read_locals loc;
  if decide (i + os < py_len (MortalityTable.l_x mt))%Z then
    a ← py_getitem l1 i;
    b ← py_getitem (MortalityTable.l_x mt) (i + os);
    py_setitem l1 i (a * b)
  else py_setitem l1 i 0.

(** Body of [for lx1 in self.l_x[1:]]; the state is [(lx, self.q_x)]. *)
Definition q_x_step (st : Qc * list Qc) (lx1 : Qc) : result (Qc * list Qc) :=
  let '(lx, q) := st in
  v ← (if decide (0 < lx) then py_div ((lx - lx1) * num 1000) lx else Ok 1);
  Ok (lx1, q ++ [v]).

Definition calc_q_x (l : list Qc) : result (list Qc) :=
  match l with
  | [] => Ok []
  | lx :: _ => snd <$> foldlM q_x_step (lx, []) (py_slice_from l 1)
  end.

(** Body of [for g in range(0, len(self.l_x) - 1)]; the state is
    [(sum_lx, self.e_x)]. *)
Definition e_x_step (l : list Qc) (st : Qc * list Qc) (g : Z)
  : result (Qc * list Qc) :=
  let '(sum_lx, e) := st in
  lx_g ← py_getitem l g;
  let sum_lx' := sum_lx - lx_g in
  v ← (if decide (0 < lx_g) then r ← py_div sum_lx' lx_g; Ok (half + r)
       else Ok half);
  Ok (sum_lx', e ++ [v]).

Definition calc_e_x (l : list Qc) : result (list Qc) :=
  snd <$> foldlM (e_x_step l) (py_sum (py_slice_but_last l), [])
                 (py_range 0 (py_len l - 1)).

(** [Pers.__init__(self, MortalityTable_list, age_list=[0])], for an argument
    that is a list of tables. *)
Definition init (MortalityTable_list : list MortalityTable.inst)
    (age_list : list Z) : result inst :=
  age_min ← py_min age_list;
  let offsets := (fun x => x - age_min)%Z <$> age_list in
  '(w1, loc1) ← foldlM (w_step MortalityTable_list offsets) (0%Z, None)
                       (py_range 0 (py_len MortalityTable_list));
  mt0 ← py_getitem MortalityTable_list 0;
  os0 ← py_getitem offsets 0;
  let l0 := py_slice_from (MortalityTable.l_x mt0) os0 in
  loc2 ← foldlM (rebind_step MortalityTable_list offsets) loc1
                (py_range 1 (py_len MortalityTable_list));
  l1 ← foldlM (l_x_step loc2) l0 (py_range 0 w1);
  q1 ← calc_q_x l1;
  e1 ← calc_e_x l1;
  Ok {| l_x := l1; q_x := q1; e_x := e1; w := w1 |}.

(** [Pers(mt)] : an argument that is not a list is wrapped into one, and
    [age_list] takes its default [[0]]. *)
Definition of_table_single (mt : MortalityTable.inst) : result inst :=
  init [mt] [0%Z].

(** *** Methods *)

Definition qx (self : inst) (x : Z) : result Qc :=
  if decide (x < py_len (q_x self))%Z then py_getitem (q_x self) x else Ok 0.

Definition lx (self : inst) (x : Z) : result Qc :=
  if decide (x < py_len (l_x self))%Z then py_getitem (l_x self) x else Ok 0.

Definition dx (self : inst) (x : Z) : result Qc :=
  end_x_val ← py_index (l_x self) 0;
  if decide (x < end_x_val)%Z then
    a ← py_getitem (l_x self) x;
    b ← py_getitem (l_x self) (x + 1);
    Ok (a - b)
  else Ok 0.

Definition px (self : inst) (x : Z) : result Qc :=
  q ← qx self x; Ok (num 1000 - q).

Definition ex (self : inst) (x : Z) : result Qc :=
  if decide (x < py_len (e_x self))%Z then py_getitem (e_x self) x else Ok 0.

Definition tpx (self : inst) (x t : Z) : result Qc :=
  a ← py_getitem (l_x self) (x + t);
  b ← py_getitem (l_x self) x;
  py_div a b.

Definition tqx (self : inst) (x t : Z) : result Qc :=
  r ← tpx self x t; Ok (1 - r).

Definition tqxn (self : inst) (x n t : Z) : result Qc :=
  p ← tpx self x t; q ← qx self (x + n); Ok (p * q).

Definition mx (self : inst) (x : Z) : result Qc :=
  a ← dx self x;
  b ← py_getitem (l_x self) x;
  py_div a b.

End Pers.

(** ** class Actuarial *)

(** The [rate] argument of [Actuarial.__init__]: a [float] is turned into a
    constant function, anything else is stored as it is and called. *)
Inductive rate_arg : Type :=
  | RateFloat (r : Qc)
  | RateCallable (f : Z -> Qc)
  | RateOther.

Module Actuarial.

Record inst : Type := mk {
  rate : option (Z -> Qc);
  l_x : list Qc;
  q_x : list Qc;
  e_x : list Qc;
  w : Z;
  D_x : list Qc;
  N_x : list Qc;
  C_x : list Qc;
  M_x : list Qc
}.

(** [self.rate]: [None] stands for a stored value that is not callable. *)
Definition store_rate (r : rate_arg) : option (Z -> Qc) :=
  match r with
  | RateFloat r => Some (fun _ => r)
  | RateCallable f => Some f
  | RateOther => None
  end.

(** [self.rate(age)] *)
Definition call_rate (r : option (Z -> Qc)) (age : Z) : result Qc :=
  match r with
  | Some f => Ok (f age)
  | None => Raise TypeError
  end.

(** [rate_ok r age]: the rate can be called at [age] and its discount
    factor [1/(1+i)] exists. *)
Definition rate_ok (r : option (Z -> Qc)) (age : Z) : Prop :=
  exists i, call_rate r age = Ok i /\ 1 + i <> 0.

(** [self.N_x.append(sum(self.D_x[k:]))] for [k] in [range(0, len(self.D_x))];
    the same loop builds [M_x] from [C_x]. *)
Definition tail_sums (D : list Qc) : list Qc :=
  (fun k => py_sum (py_slice_from D k)) <$> py_range 0 (py_len D).

Section Commutations.

(** The value of [(1 + i) ** 0.5]. *)
Variable pow_half : Qc -> Qc.

(** Body of [for j in self.l_x] of the [D_x] calculation; the state is
    [(age, self.D_x)]. *)
Definition D_x_step (r : option (Z -> Qc)) (st : Z * list Qc) (j : Qc)
  : result (Z * list Qc) :=
  let '(age, D) := st in
  i ← call_rate r age;
  v ← py_div 1 (1 + i);
  Ok ((age + 1)%Z, D ++ [py_pow v age * j]).

(** Body of [for lx1 in self.l_x] of the [C_x] calculation; the state is
    [(age, lx0, self.C_x)]. *)
Definition C_x_step (r : option (Z -> Qc)) (st : Z * Qc * list Qc) (lx1 : Qc)
  : result (Z * Qc * list Qc) :=
  let '(age0, lx0, C) := st in
  let age := (age0 + 1)%Z in
  i ← call_rate r age;
  v ← py_div 1 (1 + i);
  let Cx := py_pow v (age + 1) * (lx0 - lx1) * pow_half (1 + i) in
  Ok (age, lx1, C ++ [Cx]).

Definition calc_C_x (r : option (Z -> Qc)) (l : list Qc) : result (list Qc) :=
  match l with
  | [] => Ok []
  | lx0 :: _ => snd <$> foldlM (C_x_step r) ((-1)%Z, lx0, []) l
  end.

(** [Actuarial.__init__(self, rate, pers)] *)
Definition init (rate : rate_arg) (pers : Pers.inst) : result inst :=
  let r := store_rate rate in
  let l := Pers.l_x pers in
  '(_, D) ← foldlM (D_x_step r) (0%Z, []) l;
  let N := tail_sums D in
  C ← calc_C_x r l;
  let M := tail_sums C in
  Ok {| rate := r; l_x := l; q_x := Pers.q_x pers; e_x := Pers.e_x pers;
        w := Pers.w pers; D_x := D; N_x := N; C_x := C; M_x := M |}.

End Commutations.

(** *** Commutations *)

Definition Dx (self : inst) (x : Z) : result Qc :=
  if decide (x < py_len (D_x self))%Z then py_getitem (D_x self) x else Ok 0.

Definition Nx (self : inst) (x : Z) : result Qc :=
  if decide (x < py_len (N_x self))%Z then py_getitem (N_x self) x else Ok 0.

Definition Sx (self : inst) (x : Z) : result Qc :=
  Ok (py_sum (py_slice_from (N_x self) x)).

Definition Cx (self : inst) (x : Z) : result Qc :=
  if decide (x < py_len (C_x self))%Z then py_getitem (C_x self) x else Ok 0.

Definition Mx (self : inst) (x : Z) : result Qc :=
  if decide (x < py_len (M_x self))%Z then py_getitem (M_x self) x else Ok 0.

Definition Rx (self : inst) (x : Z) : result Qc :=
  Ok (py_sum (py_slice_from (M_x self) x)).

(** *** Pure endowment and insurances *)

Definition nEx (self : inst) (x n : Z) : result Qc :=
  a ← Dx self (x + n);
  b ← Dx self x;
  py_div a b.

Definition Ax (self : inst) (x : Z) : result Qc :=
  a ← Mx self x;
  b ← Dx self x;
  py_div a b.

Definition Axn (self : inst) (x n : Z) : result Qc :=
  a ← Mx self x;
  a' ← Mx self (x + n);
  b ← Dx self x;
  py_div (a - a') b.

Definition tAx (self : inst) (x t : Z) : result Qc :=
  a ← Mx self (x + t);
  b ← Dx self x;
  py_div a b.

Definition AExn (self : inst) (x n : Z) : result Qc :=
  a ← Axn self x n;
  b ← nEx self x n;
  Ok (a + b).

(** *** Discrete life annuities *)

(** [float(m-1)/float(m*2)] *)
Definition frac (m : Z) : result Qc := py_div (num (m - 1)) (num (m * 2)).

Definition aaxn (self : inst) (x n m : Z) : result Qc :=
  d ← Dx self x;
  res ← (if decide (0 < d) then
           a ← Nx self x; a' ← Nx self (x + n); py_div (a - a') d
         else Ok 1);
  if decide (m = 1%Z) then Ok res
  else f ← frac m; e ← nEx self x n; Ok (res - f * (1 - e)).

Definition axn (self : inst) (x n m : Z) : result Qc :=
  d ← Dx self x;
  res ← (if decide (0 < d) then
           a ← Nx self (x + 1); a' ← Nx self (x + n + 1); py_div (a - a') d
         else Ok 0);
  if decide (m = 1%Z) then Ok res
  else f ← frac m; e ← nEx self x n; Ok (res + f * (1 - e)).

Definition aax (self : inst) (x m : Z) : result Qc :=
  d ← Dx self x;
  res ← (if decide (0 < d) then a ← Nx self x; py_div a d else Ok 1);
  if decide (m = 1%Z) then Ok res
  else f ← frac m; Ok (res - f).

Definition ax (self : inst) (x m : Z) : result Qc :=
  d ← Dx self x;
  res ← (if decide (0 < d) then a ← Nx self (x + 1); py_div a d else Ok 0);
  if decide (m = 1%Z) then Ok res
  else f ← frac m; Ok (res + f).

Definition taax (self : inst) (x t m : Z) : result Qc :=
  d ← Dx self x;
  res ← (if decide (0 < d) then a ← Nx self (x + t); py_div a d
         else Ok (if decide (t = 0%Z) then 1 else 0));
  if decide (m = 1%Z) then Ok res
  else f ← frac m; e ← nEx self x t; Ok (res - f * (1 - e)).

Definition tax (self : inst) (x t m : Z) : result Qc :=
  d ← Dx self x;
  res ← (if decide (0 < d) then a ← Nx self (x + t + 1); py_div a d
         else Ok 0);
  if decide (m = 1%Z) then Ok res
  else f ← frac m; e ← nEx self x t; Ok (res + f * (1 - e)).

(** *** Arithmetically increasing annuities *)

(** The first [def Iaaxn] of the class body. *)
Definition Iaaxn_formula (self : inst) (x n : Z) : result Qc :=
  s ← Sx self x;
  s' ← Sx self (x + n);
  a ← py_getitem (N_x self) (x + n);
  d ← Dx self x;
  py_div (s - s' - num n * a) d.

(** The first [def Iaxn] of the class body; it calls the list [self.N_x]. *)
Definition Iaxn_formula (self : inst) (x n : Z) : result Qc :=
  s ← Sx self (x + 1);
  s' ← Sx self (x + n + 1);
  a ← (Raise TypeError : result Qc);
  d ← Dx self x;
  py_div (s - s' - num n * a) d.

Definition Iaax (self : inst) (x : Z) : result Qc :=
  s ← Sx self x; d ← Dx self x; py_div s d.

Definition Iax (self : inst) (x : Z) : result Qc :=
  s ← Sx self (x + 1); d ← Dx self x; py_div s d.

Definition Itaax (self : inst) (x t : Z) : result Qc :=
  s ← Sx self x; s' ← Sx self (x + t); d ← Dx self x; py_div (s - s') d.

Definition Itax (self : inst) (x t : Z) : result Qc :=
  s ← Sx self (x + 1); s' ← Sx self (x + t + 1); d ← Dx self x;
  py_div (s - s') d.

(** *** Method calls

    The statements of a class body run in order and bind names in the class
    namespace, a dictionary: a later [def] of a name replaces an earlier one.
    Methods are called here with integer arguments. *)

Inductive pyval : Type :=
  | PNone
  | PNum (q : Qc).

Definition method : Type := inst -> list Z -> result pyval.

(** [def f(self, x)] *)
Definition m_x (f : inst -> Z -> result Qc) : method := fun self args =>
  match args with
  | [x] => PNum <$> f self x
  | _ => Raise TypeError
  end.

(** [def f(self, x, n)] *)
Definition m_xn (f : inst -> Z -> Z -> result Qc) : method := fun self args =>
  match args with
  | [x; n] => PNum <$> f self x n
  | _ => Raise TypeError
  end.

(** [def f(self, x, n, t)] *)
Definition m_xnt (f : inst -> Z -> Z -> Z -> result Qc) : method :=
  fun self args =>
  match args with
  | [x; n; t] => PNum <$> f self x n t
  | _ => Raise TypeError
  end.

(** [def f(self, x, m=1)] *)
Definition m_xm (f : inst -> Z -> Z -> result Qc) : method := fun self args =>
  match args with
  | [x] => PNum <$> f self x 1%Z
  | [x; m] => PNum <$> f self x m
  | _ => Raise TypeError
  end.

(** [def f(self, x, n, m=1)] *)
Definition m_xnm (f : inst -> Z -> Z -> Z -> result Qc) : method :=
  fun self args =>
  match args with
  | [x; n] => PNum <$> f self x n 1%Z
  | [x; n; m] => PNum <$> f self x n m
  | _ => Raise TypeError
  end.

(** A [def] whose body is [pass], with [required] positional parameters
    after [self] and [optional] defaulted ones: it returns [None]. *)
Definition m_pass (required optional : nat) : method := fun _ args =>
  if decide (required <= length args <= required + optional)%nat then Ok PNone
  else Raise TypeError.

(** The [def] statements of [class Actuarial], in source order
    ([__init__] is [init] above). *)
Definition class_body : list (string * method) :=
  [ ("Dx", m_x Dx); ("Nx", m_x Nx); ("Sx", m_x Sx); ("Cx", m_x Cx);
    ("Mx", m_x Mx); ("Rx", m_x Rx);
    ("nEx", m_xn nEx); ("Ax", m_x Ax); ("Axn", m_xn Axn); ("tAx", m_xn tAx);
    ("tAxn", m_pass 3 0); ("AExn", m_xn AExn);
    ("IAx", m_pass 1 0); ("IAxn", m_pass 2 0); ("qAx", m_pass 2 1);
    ("qAxn", m_pass 3 1); ("qtAx", m_pass 3 0); ("qtAxn", m_pass 3 0);
    ("aaxn", m_xnm aaxn); ("axn", m_xnm axn); ("aax", m_xm aax);
    ("ax", m_xm ax); ("taaxn", m_pass 2 1); ("taxn", m_pass 2 1);
    ("taax", m_xnm taax); ("tax", m_xnm tax);
    ("Iaaxn", m_xn Iaaxn_formula); ("Iaxn", m_xn Iaxn_formula);
    ("Iaax", m_x Iaax); ("Iax", m_x Iax);
    ("Iaaxn", m_pass 2 0); ("Iaxn", m_pass 2 0);
    ("Itaax", m_xn Itaax); ("Itax", m_xn Itax) ]%string.

(** Running a class body: each [def] inserts into the namespace. *)
Definition exec_class_body {M} (body : list (string * M)) : gmap string M :=
  foldl (fun d kv => <[kv.1 := kv.2]> d) ∅ body.

Definition class_dict : gmap string method := exec_class_body class_body.

(** The view of an [Actuarial] as an instance of its base class [Pers]. *)
Definition as_pers (self : inst) : Pers.inst :=
  {| Pers.l_x := l_x self; Pers.q_x := q_x self; Pers.e_x := e_x self;
     Pers.w := w self |}.

(** The methods that [Actuarial] inherits from [class Pers] ([Pers.w] is
    listed too: the instance attribute [w] hides it, see [call]). *)
Definition base_class_body : list (string * method) :=
  [ ("qx", m_x (fun self => Pers.qx (as_pers self)));
    ("lx", m_x (fun self => Pers.lx (as_pers self)));
    ("w", fun self args =>
            match args with
            | [] => Ok (PNum (num (py_len (l_x self))))
            | _ => Raise TypeError
            end);
    ("dx", m_x (fun self => Pers.dx (as_pers self)));
    ("px", m_x (fun self => Pers.px (as_pers self)));
    ("tpx", m_xn (fun self => Pers.tpx (as_pers self)));
    ("tqx", m_xn (fun self => Pers.tqx (as_pers self)));
    ("tqxn", m_xnt (fun self => Pers.tqxn (as_pers self)));
    ("ex", m_x (fun self => Pers.ex (as_pers self)));
    ("mx", m_x (fun self => Pers.mx (as_pers self))) ]%string.

Definition base_class_dict : gmap string method :=
  exec_class_body base_class_body.

(** The instance attributes set by [__init__] that hold data, not functions. *)
Definition data_attributes : list string :=
  [ "l_x"; "q_x"; "e_x"; "w"; "D_x"; "N_x"; "C_x"; "M_x" ]%string.

(** [self.name(args)]: the instance attributes come first, then the class
    namespace, then the namespace of the base class. *)
Definition call (self : inst) (name : string) (args : list Z) : result pyval :=
  if decide (name ∈ data_attributes) then Raise TypeError
  else if decide (name = "rate"%string) then
    match args with
    | [age] => PNum <$> call_rate (rate self) age
    | _ => Raise TypeError
    end
  else match class_dict !! name with
       | Some f => f self args
       | None =>
           match base_class_dict !! name with
           | Some f => f self args
           | None => Raise AttributeError
           end
       end.

End Actuarial.

(** ** def annuity

    The dispatching helper [annuity(mt, i, x, n, p, m=1, *args)].  Its
    arguments are dynamically typed; the embedding takes them in the shapes
    that the source tests for: [n] is an [int] or a [str], [m] and each extra
    argument is an [int] or a [list], and the items of such a list are
    strings or numbers.  [mt] is one mortality table.  What the function
    prints is returned beside its result. *)

Module Annuity.

Inductive item : Type :=
  | IStr (s : string)
  | INum (q : Qc).

Inductive narg : Type :=
  | NInt (z : Z)
  | NStr (s : string).

Inductive marg : Type :=
  | MInt (z : Z)
  | MList (l : list item).

(** The local variable [args] after the first block: still a tuple of
    arguments, [False], or the single argument [args[1]]. *)
Inductive argsval : Type :=
  | ATuple (l : list marg)
  | AFalse
  | AElement (a : marg).

(** What [annuity] returns: the value of a method call or an error text. *)
Inductive pyret : Type :=
  | RVal (v : Actuarial.pyval)
  | RStr (s : string).

#[global] Instance item_eq_dec : EqDecision item.
Proof. solve_decision. Defined.

(** [isinstance(v, int)] and [isinstance(v, list)] *)
Definition is_int (v : marg) : bool :=
  match v with MInt _ => true | MList _ => false end.

Definition is_list (v : marg) : bool :=
  match v with MInt _ => false | MList _ => true end.

(** [int(v)] *)
Definition py_int (v : marg) : result Z :=
  match v with
  | MInt z => Ok z
  | MList _ => Raise TypeError
  end.

(** [v >= 0] for a [v] already known to be an [int]. *)
Definition int_nonneg (v : marg) : bool :=
  match v with
  | MInt z => bool_decide (0 <= z)%Z
  | MList _ => false
  end.

(** The flags and variables set by the block that inspects [m] and [args]:
    [(m, args, incr, deff, t)], with [t] unbound unless [deff] is set. *)
Definition shape : Type := marg * argsval * bool * bool * option Z.

Definition inspect (m : marg) (args : list marg) : result shape :=
  let l := py_len args in
  if is_int m && int_nonneg m && bool_decide (l = 0%Z) then
    Ok (m, ATuple args, false, false, None)
  else if bool_decide (l = 0%Z) && is_list m then
    Ok (MInt 1, ATuple [m], true, false, None)
  else
    negative ← (if bool_decide (l = 0%Z)
                then z ← py_int m; Ok (bool_decide (z < 0)%Z)
                else Ok false);
    if (negative : bool) then
      z ← py_int m;
      Ok (MInt 1, AFalse, false, true, Some (z * -1)%Z)
    else if bool_decide (l = 1%Z) then
      a0 ← py_getitem args 0;
      if is_list a0 then Ok (m, ATuple args, true, false, None)
      else if is_int a0 then
        if is_list m then
          z ← py_int a0;
          Ok (MInt 1, ATuple [m], true, true, Some (z * -1)%Z)
        else
          z ← py_int a0;
          Ok (m, AFalse, false, true, Some (z * -1)%Z)
      else Ok (m, ATuple args, false, false, None)
    else if bool_decide (l = 2%Z) then
      a0 ← py_getitem args 0;
      if is_list a0 then
        a1 ← py_getitem args 1;
        z ← py_int a1;
        Ok (m, ATuple args, true, true, Some (z * -1)%Z)
      else if is_int a0 then
        z ← py_int a0;
        a1 ← py_getitem args 1;
        Ok (m, AElement a1, false, true, Some (z * -1)%Z)
      else Ok (m, ATuple args, false, false, None)
    else Ok (m, ATuple args, false, false, None).

(** [args[0]] as the operand of [in]: a list of items.  [False] cannot be
    subscripted and an [int] cannot be searched; an item of a list (reached
    through [args = args[1]]) is outside the shapes modelled, and [incr] is
    never set with it. *)
Definition args_head (a : argsval) : result (list item) :=
  match a with
  | ATuple l =>
      a0 ← py_getitem l 0;
      match a0 with
      | MList items => Ok items
      | MInt _ => Raise TypeError
      end
  | AFalse => Raise TypeError
  | AElement _ => Raise TypeError
  end.

(** The variable [t] where it is read. *)
Definition read_t (t : option Z) : result Z :=
  match t with
  | Some z => Ok z
  | None => Raise NameError
  end.

(** [n] where a method adds it to [x]. *)
Definition n_int (n : narg) : result Z :=
  match n with
  | NInt z => Ok z
  | NStr _ => Raise TypeError
  end.

(** A call [act.f(..., m)] of an annuity formula.  With [m] a list the
    formula runs as for [m = 1] up to the test [m == 1], which fails, and
    then [float(m-1)] raises [TypeError]. *)
Definition with_m (f : Z -> result Qc) (m : marg) : result pyret :=
  match m with
  | MInt z => v ← f z; Ok (RVal (Actuarial.PNum v))
  | MList _ => _ ← f 1%Z; Raise TypeError
  end.

(** A call [act.name(a1, ..., ak)] of a method that is a placeholder or is
    missing: only the name and the number of arguments decide its result. *)
Definition call_by_arity (act : Actuarial.inst) (name : string) (k : nat)
  : result pyret :=
  v ← Actuarial.call act name (replicate k 0%Z); Ok (RVal v).

Definition payment_error : string := "Error: payment value is 0 or 1".

Definition increasing_error : string :=
  "Error: increasing value is 'a' or 'g'".

(** What the test of the payment flag [p] prints: nothing for 1 and 0, the
    error line otherwise. *)
Definition printed (p : Z) : list string :=
  if bool_decide (p = 1%Z) then []
  else if bool_decide (p = 0%Z) then []
  else [payment_error].

Section Dispatch.

Variable pow_half : Qc -> Qc.

(** The part of [annuity] after the flags are set: build the model and call
    the formula that the flags select. *)
Definition dispatch (mt : MortalityTable.inst) (i : rate_arg) (x : Z)
    (n : narg) (m : marg) (t : option Z) (incr deff wh_l post : bool)
  : result pyret :=
  pers ← Pers.of_table_single mt;
  act ← Actuarial.init pow_half i pers;
  if negb incr && negb deff && negb wh_l && negb post then
    n' ← n_int n; with_m (Actuarial.aaxn act x n') m
  else if negb incr && negb deff && negb wh_l && post then
    n' ← n_int n; with_m (Actuarial.axn act x n') m
  else if negb incr && negb deff && wh_l && negb post then
    with_m (Actuarial.aax act x) m
  else if negb incr && negb deff && wh_l && post then
    with_m (Actuarial.ax act x) m
  else if negb incr && deff && negb wh_l && negb post then
    call_by_arity act "taaxn" 4
  else if negb incr && deff && negb wh_l && post then
    call_by_arity act "taxn" 4
  else if negb incr && deff && wh_l && negb post then
    t' ← read_t t; with_m (Actuarial.taax act x t') m
  else if negb incr && deff && wh_l && post then
    t' ← read_t t; with_m (Actuarial.tax act x t') m
  else if incr && negb deff && negb wh_l && negb post then
    call_by_arity act "qaaxn" 4
  else if incr && negb deff && negb wh_l && post then
    call_by_arity act "qAxn" 4
  else if incr && negb deff && wh_l && negb post then
    call_by_arity act "qaax" 3
  else if incr && negb deff && wh_l && post then
    call_by_arity act "qAx" 3
  else if incr && deff && negb wh_l && negb post then
    call_by_arity act "qtaaxn" 5
  else if incr && deff && negb wh_l && post then
    call_by_arity act "qtaxn" 5
  else if incr && deff && wh_l && negb post then
    call_by_arity act "qtaax" 4
  else
    t' ← read_t t; v ← Actuarial.Itax act x t'; Ok (RVal (Actuarial.PNum v)).

(** [annuity(mt, i, x, n, p, m, *args)]: the lines printed and the
    result. *)
Definition annuity (mt : MortalityTable.inst) (i : rate_arg) (x : Z)
    (n : narg) (p : Z) (m : marg) (args : list marg)
  : list string * result pyret :=
  let wh_l := match n with
              | NStr _ => true
              | NInt z => bool_decide (z = 99%Z)
              end in
  match inspect m args with
  | Raise e => ([], Raise e)
  | Ok (m1, args1, incr, deff, t) =>
      let post := bool_decide (p = 1%Z) in
      let printed := printed p in
      if incr then
        match args_head args1 with
        | Raise e => (printed, Raise e)
        | Ok items =>
            if bool_decide (IStr "a" ∈ items) then
              (printed, dispatch mt i x n m1 t false deff wh_l post)
            else if bool_decide (IStr "g" ∈ items) then
              match py_getitem items 1 with
              | Raise e => (printed, Raise e)
              | Ok q => (printed, dispatch mt i x n m1 t true deff wh_l post)
              end
            else (printed, Ok (RStr increasing_error))
        end
      else (printed, dispatch mt i x n m1 t false deff wh_l post)
  end.

End Dispatch.

End Annuity.

(** * The formulas as the specification words them *)

Module Spec.

(** A survivor count, 0 outside the table. *)
Definition lx_or_0 (l : list Qc) (i : Z) : Qc :=
  if decide (0 <= i)%Z then default 0 (l !! Z.to_nat i) else 0.

(** [offset[i] = age[i] - min(age)] *)
Definition offsets (age : list Z) : list Z :=
  match age with
  | [] => []
  | a :: rest => (fun x => x - foldl Z.min a rest)%Z <$> age
  end.

(** [l_combined[t]]: the product over the lives [i] of
    [model[i].l[t + offset[i]]]. *)
Definition l_combined (model : list MortalityTable.inst) (age : list Z)
    (t : Z) : Qc :=
  foldr Qcmult 1
    (zip_with (fun mt os => lx_or_0 (MortalityTable.l_x mt) (t + os))
              model (offsets age)).

(** [C[x] = v(x)^(x+1) * (l[x] - l[x+1]) * (1 + rate(x))^0.5] with
    [v(x) = 1/(1 + rate(x))]. *)
Definition C (pow_half : Qc -> Qc) (rate : Z -> Qc) (l : list Qc) (x : Z)
  : Qc :=
  py_pow (1 / (1 + rate x)) (x + 1) * (lx_or_0 l x - lx_or_0 l (x + 1))
  * pow_half (1 + rate x).

End Spec.

(** * Sample data *)

Module Sample.

(** The survivor counts [[1000, 500, 0]]. *)
Definition l : list Qc := [num 1000; num 500; 0].

(** [MortalityTable(l_x=[1000, 500, 0])] *)
Definition table : result MortalityTable.inst := MortalityTable.of_l_x l.

(** The instance that this call builds (see [Sample_table_built]). *)
Definition table_inst : MortalityTable.inst :=
  {| MortalityTable.l_x := l; MortalityTable.q_x := [];
     MortalityTable.e_x := []; MortalityTable.perc := num 100;
     MortalityTable.nt := None; MortalityTable.w := 1 |}.

(** [Pers(table)] *)
Definition pers : result Pers.inst := mt ← table; Pers.of_table_single mt.

(** [Actuarial(0.0, Pers(table))] *)
Definition act (pow_half : Qc -> Qc) : result Actuarial.inst :=
  p ← pers; Actuarial.init pow_half (RateFloat 0) p.

(** [Actuarial(0.0, table)], the table itself standing for one person. *)
Definition act_of_table (pow_half : Qc -> Qc) : result Actuarial.inst :=
  Actuarial.init pow_half (RateFloat 0) (Pers.of_table table_inst).

(** Three lives of the same age, with survivor counts [[10, 5, 0]],
    [[8, 4, 0]] and [[6, 3, 0]]. *)
Definition three_tables : result (list MortalityTable.inst) :=
  a ← MortalityTable.of_l_x [num 10; num 5; 0];
  b ← MortalityTable.of_l_x [num 8; num 4; 0];
  c ← MortalityTable.of_l_x [num 6; num 3; 0];
  Ok [a; b; c].

Definition three_ages : list Z := [40; 40; 40]%Z.

(** With the rate [0.0] of the samples, [(1 + i) ** 0.5] is only evaluated
    at [1], where its value is [1]; the identity function agrees with it
    there. *)
Definition pow_half_at_1 : Qc -> Qc := fun q => q.

End Sample.

(** * The commutation sums in binary64 *)

(** The lines of [Actuarial.__init__] that build [D_x] and [N_x], and the
    accessors that read them, over IEEE 754 binary64, the arithmetic of
    Python's [float]. *)
Module Binary64.

(** [sum(l)] for a list of floats, up to CPython 3.11: the items are added
    from left to right, starting from 0. *)
Definition py_sum (l : list float) : float := foldl PrimFloat.add 0%float l.

Definition is_finite (x : float) : bool :=
  negb (PrimFloat.is_nan x) && negb (PrimFloat.is_infinity x).

(** One item of [sum(l)] from CPython 3.12 on, which carries a compensation
    term [c] next to the running sum [f]. *)
Definition compensated_step (st : float * float) (x : float) : float * float :=
  let '(f, c) := st in
  let t := PrimFloat.add f x in
  if PrimFloat.leb (PrimFloat.abs x) (PrimFloat.abs f)
  then (t, PrimFloat.add c (PrimFloat.add (PrimFloat.sub f t) x))
  else (t, PrimFloat.add c (PrimFloat.add (PrimFloat.sub x t) f)).

(** [sum(l)] from CPython 3.12 on: the compensation is added at the end
    when it is finite and not zero. *)
Definition py_sum_compensated (l : list float) : float :=
  let '(f, c) := foldl compensated_step (0%float, 0%float) l in
  if negb (PrimFloat.eqb c 0%float) && is_finite c then PrimFloat.add f c
  else f.

(** [a / b] *)
Definition py_div (a b : float) : result float :=
  if PrimFloat.eqb b 0%float then Raise ZeroDivisionError
  else Ok (PrimFloat.div a b).

(** [l.index(0) - 1], the [w] that [MortalityTable.__init__] stores. *)
Definition w (l_x : list float) : result Z :=
  match list_find (fun v => PrimFloat.eqb v 0%float = true) l_x with
  | Some (i, _) => Ok (Z.of_nat i - 1)%Z
  | None => Raise ValueError
  end.

Section Commutations.

(** The built-in [sum]. *)
Variable sum : list float -> float.

(** The value of [b ** age]. *)
Variable pow : float -> Z -> float.

(** Body of [for j in self.l_x] of the [D_x] calculation, for a rate given
    as a float; the state is [(age, self.D_x)]. *)
Definition D_x_step (rate : float) (st : Z * list float) (j : float)
  : result (Z * list float) :=
  let '(age, D) := st in
  let i := rate in
  v ← py_div 1%float (PrimFloat.add 1%float i);
  Ok ((age + 1)%Z, D ++ [PrimFloat.mul (pow v age) j]).

(** [self.N_x.append(sum(self.D_x[k:]))] for [k] in [range(0, len(self.D_x))] *)
Definition tail_sums (D : list float) : list float :=
  (fun k => sum (py_slice_from D k)) <$> py_range 0 (py_len D).

(** The [D_x] and [N_x] that [Actuarial.__init__(self, rate, pers)] stores
    for the survivor counts [l_x] of [pers]. *)
Definition commutations (rate : float) (l_x : list float)
  : result (list float * list float) :=
  '(_, D) ← foldlM (D_x_step rate) (0%Z, []) l_x;
  Ok (D, tail_sums D).

End Commutations.

(** [Dx(x)] and [Nx(x)], reading the stored sequence [L]. *)
Definition at_age (L : list float) (x : Z) : result float :=
  if decide (x < py_len L)%Z then py_getitem L x else Ok 0%float.

(** [nEx(x, n)] *)
Definition nEx (D : list float) (x n : Z) : result float :=
  a ← at_age D (x + n);
  b ← at_age D x;
  py_div a b.

(** With the rate [0.0] the discount factor [1 / (1 + i)] is [1.0], and
    [1.0 ** age] is [1.0] at every age; the first projection agrees with
    the power there. *)
Definition pow_at_1 : float -> Z -> float := fun b _ => b.

(** The survivor counts [[1.0, 0.8, 0.1, 0.0]].  A [MortalityTable] built
    from them stores them as they are, since they end with a zero. *)
Definition l : list float :=
  [1%float; 0x1.999999999999ap-1%float; 0x1.999999999999ap-4%float; 0%float].

(** The survivor counts that [Pers.__init__] leaves for the single table
    [[1e200, 1.0, 0.0]]: the count below [w = 1] multiplied by itself, and a
    zero appended. *)
Definition l_overflowed : list float :=
  [PrimFloat.mul 0x1.4e718d7d7625ap+664%float 0x1.4e718d7d7625ap+664%float;
   1%float; 0%float; 0%float].

End Binary64.

(** * Properties *)

(** ** The result monad and the list primitives *)

Lemma py_div_nonzero (a b : Qc) : b <> 0 -> py_div a b = Ok (a / b).
Proof. intros Hb. unfold py_div. destruct (decide (b = 0)); [done|reflexivity]. Qed.

Lemma py_div_zero (a : Qc) : py_div a 0 = Raise ZeroDivisionError.
Proof. unfold py_div. destruct (decide (0 = 0)); done. Qed.

Lemma bind_Ok {A B} (r : result A) (f : A -> result B) (b : B) :
  r ≫= f = Ok b <-> exists a, r = Ok a /\ f a = Ok b.
Proof.
  destruct r as [a|e]; simpl; split.
  - intros H. by exists a.
  - by intros (a' & [= ->] & H).
  - done.
  - by intros (a' & [=] & _).
Qed.

(** ** Method resolution *)

Section Namespace.

Context {M : Type}.

Lemma exec_class_body_snoc (body : list (string * M)) (k : string) (v : M) :
  Actuarial.exec_class_body (body ++ [(k, v)]) = <[k := v]> (Actuarial.exec_class_body body).
Proof. unfold Actuarial.exec_class_body. by rewrite foldl_app. Qed.

(** A later [def] of a name replaces every earlier one. *)
Lemma exec_class_body_last_wins (body rest : list (string * M)) k v :
  k ∉ rest.*1 ->
  Actuarial.exec_class_body (body ++ (k, v) :: rest) !! k = Some v.
Proof.
  revert body. induction rest as [|[k' v'] rest IH] using rev_ind; intros body Hk.
  - rewrite exec_class_body_snoc. apply lookup_insert_eq.
  - rewrite fmap_app in Hk. apply not_elem_of_app in Hk as [Hk Hk'].
    replace (body ++ (k, v) :: rest ++ [(k', v')])
      with ((body ++ (k, v) :: rest) ++ [(k', v')])
      by (by rewrite <- app_assoc).
    rewrite exec_class_body_snoc, lookup_insert_ne; [by apply IH|].
    simpl in Hk'. set_solver.
Qed.

End Namespace.

(** The class body really holds two bindings of each name, the formula
    first and the placeholder after it. *)
Lemma Iaaxn_defined_twice :
  Actuarial.class_body !! 26%nat = Some ("Iaaxn"%string, Actuarial.m_xn Actuarial.Iaaxn_formula)
  /\ Actuarial.class_body !! 30%nat = Some ("Iaaxn"%string, Actuarial.m_pass 2 0)
  /\ Actuarial.class_body !! 27%nat = Some ("Iaxn"%string, Actuarial.m_xn Actuarial.Iaxn_formula)
  /\ Actuarial.class_body !! 31%nat = Some ("Iaxn"%string, Actuarial.m_pass 2 0).
Proof. repeat split. Qed.

Lemma Iaaxn_resolves_to_placeholder :
  Actuarial.class_dict !! "Iaaxn"%string = Some (Actuarial.m_pass 2 0).
Proof.
  unfold Actuarial.class_dict.
  change Actuarial.class_body
    with (take 30 Actuarial.class_body
          ++ ("Iaaxn"%string, Actuarial.m_pass 2 0) :: drop 31 Actuarial.class_body).
  apply exec_class_body_last_wins. compute_done.
Qed.

Lemma Iaxn_resolves_to_placeholder :
  Actuarial.class_dict !! "Iaxn"%string = Some (Actuarial.m_pass 2 0).
Proof.
  unfold Actuarial.class_dict.
  change Actuarial.class_body
    with (take 31 Actuarial.class_body
          ++ ("Iaxn"%string, Actuarial.m_pass 2 0) :: drop 32 Actuarial.class_body).
  apply exec_class_body_last_wins. compute_done.
Qed.

Lemma call_class_method (self : Actuarial.inst) name f args :
  name ∉ Actuarial.data_attributes -> name <> "rate"%string ->
  Actuarial.class_dict !! name = Some f ->
  Actuarial.call self name args = f self args.
Proof.
  intros H1 H2 H3. unfold Actuarial.call.
  destruct (decide (name ∈ Actuarial.data_attributes)); [done|].
  destruct (decide (name = "rate"%string)); [done|].
  by rewrite H3.
Qed.

(** C10: for every Actuarial, every age [x] and every term [n], the calls
    [Iaaxn(x, n)] and [Iaxn(x, n)] return [None]: the placeholder definitions
    that come later in the class body replace the formula bodies. *)
Theorem C10_Iaaxn_Iaxn_return_None (self : Actuarial.inst) (x n : Z) :
  Actuarial.call self "Iaaxn" [x; n] = Ok Actuarial.PNone
  /\ Actuarial.call self "Iaxn" [x; n] = Ok Actuarial.PNone.
Proof.
  split.
  - rewrite (call_class_method self _ (Actuarial.m_pass 2 0));
      [reflexivity | compute_done | done | apply Iaaxn_resolves_to_placeholder].
  - rewrite (call_class_method self _ (Actuarial.m_pass 2 0));
      [reflexivity | compute_done | done | apply Iaxn_resolves_to_placeholder].
Qed.

(** ** Pure endowment *)




(** In binary64 the quotient [d / d] is 1 for a finite [d] that is not
    zero, but not for a [d] that has overflowed: for the single life
    [[1e200, 1.0, 0.0]], [D(0)] is infinite and [nEx(0, 0)] is not a
    number. *)
Lemma nEx_zero_term_of_overflowed_D :
  exists D N q,
    Binary64.commutations Binary64.py_sum Binary64.pow_at_1 0%float
      Binary64.l_overflowed = Ok (D, N)
    /\ Binary64.at_age D 0 = Ok infinity
    /\ Binary64.nEx D 0 0 = Ok q
    /\ PrimFloat.is_nan q = true.
Proof.
  do 3 eexists. split; [vm_compute; reflexivity|].
  split; [vm_compute; reflexivity|].
  split; vm_compute; reflexivity.
Qed.

(** ** Annuities where [D(x) = 0] *)

Lemma num_double_nonzero (m : Z) : (1 < m)%Z -> num (m * 2) <> 0.
Proof.
  intros Hm H. unfold num in H. rewrite <- Z2Qc_inj_0 in H.
  apply Z2Qc_inj in H. lia.
Qed.

Lemma frac_returns (m : Z) :
  (1 < m)%Z -> Actuarial.frac m = Ok (num (m - 1) / num (m * 2)).
Proof. intros Hm. apply py_div_nonzero. by apply num_double_nonzero. Qed.

Ltac fallback_branch H :=
  rewrite H; simpl;
  repeat lazymatch goal with
    | |- context [decide (0 < 0)] =>
        destruct (decide (0 < 0)) as [Hlt|_];
        [by apply Qclt_not_eq in Hlt|]
    | |- context [decide (1%Z = 1%Z)] =>
        destruct (decide (1%Z = 1%Z)); [|done]
    end; simpl.

(** C6 (amended): for every Actuarial and every age [x] with [D(x) = 0]:
    with the default frequency [m = 1], [aaxn] and [aax] return 1, [axn],
    [ax] and [tax] return 0, and [taax] returns 1 when [t = 0] and 0
    otherwise; with [m > 1], [aax] returns [1 - (m-1)/(2m)] and [ax] returns
    [(m-1)/(2m)]. *)
Theorem C6_annuity_fallback (self : Actuarial.inst) (x n t : Z) :
  Actuarial.Dx self x = Ok 0 ->
  Actuarial.aaxn self x n 1 = Ok 1
  /\ Actuarial.aax self x 1 = Ok 1
  /\ Actuarial.axn self x n 1 = Ok 0
  /\ Actuarial.ax self x 1 = Ok 0
  /\ Actuarial.tax self x t 1 = Ok 0
  /\ Actuarial.taax self x t 1 = Ok (if decide (t = 0%Z) then 1 else 0)
  /\ (forall m : Z, (1 < m)%Z ->
        Actuarial.aax self x m = Ok (1 - num (m - 1) / num (m * 2))
        /\ Actuarial.ax self x m = Ok (num (m - 1) / num (m * 2))).
Proof.
  intros Hd.
  repeat split;
    try (unfold Actuarial.aaxn, Actuarial.aax, Actuarial.axn, Actuarial.ax,
           Actuarial.tax, Actuarial.taax; fallback_branch Hd; reflexivity).
  - unfold Actuarial.aax. fallback_branch Hd.
    destruct (decide (m = 1%Z)); [lia|]. by rewrite frac_returns.
  - unfold Actuarial.ax. fallback_branch Hd.
    destruct (decide (m = 1%Z)); [lia|]. rewrite frac_returns by done.
    simpl. f_equal. ring.
Qed.

(** With [m > 1] the four formulas that apply the adjustment through [nEx]
    divide by [D(x) = 0]. *)
Lemma annuity_fallback_frequent_raises (self : Actuarial.inst) (x n m : Z) :
  Actuarial.Dx self x = Ok 0 -> (0 <= x)%Z -> (0 <= n)%Z -> (1 < m)%Z ->
  Actuarial.aaxn self x n m = Raise ZeroDivisionError
  /\ Actuarial.axn self x n m = Raise ZeroDivisionError
  /\ Actuarial.taax self x n m = Raise ZeroDivisionError
  /\ Actuarial.tax self x n m = Raise ZeroDivisionError.
Proof.
  intros Hd Hx Hn Hm.
  assert (He : Actuarial.nEx self x n = Raise ZeroDivisionError).
  { unfold Actuarial.nEx. rewrite Hd.
    unfold Actuarial.Dx at 1.
    destruct (decide (x + n < py_len (Actuarial.D_x self))%Z) as [Hlt|Hge];
      [|simpl; apply py_div_zero].
    unfold py_getitem, py_pos.
    destruct (decide (x + n < 0)%Z); [lia|].
    destruct (decide (x + n < 0)%Z); [lia|].
    destruct (Actuarial.D_x self !! Z.to_nat (x + n)) eqn:E.
    - simpl. apply py_div_zero.
    - apply lookup_ge_None in E. unfold py_len in Hlt. lia. }
  repeat split;
    unfold Actuarial.aaxn, Actuarial.axn, Actuarial.taax, Actuarial.tax;
    fallback_branch Hd;
    (destruct (decide (m = 1%Z)); [lia|]);
    rewrite frac_returns by done; simpl; by rewrite He.
Qed.

Lemma C6_annuity_fallback_witness :
  exists a, Sample.act Sample.pow_half_at_1 = Ok a
    /\ Actuarial.Dx a 2 = Ok 0
    /\ Actuarial.aaxn a 2 1 1 = Ok 1
    /\ Actuarial.aax a 2 1 = Ok 1
    /\ Actuarial.axn a 2 1 1 = Ok 0
    /\ Actuarial.ax a 2 1 = Ok 0
    /\ Actuarial.tax a 2 1 1 = Ok 0
    /\ Actuarial.taax a 2 1 1 = Ok (if decide (1%Z = 0%Z) then 1 else 0)
    /\ (forall m : Z, (1 < m)%Z ->
          Actuarial.aax a 2 m = Ok (1 - num (m - 1) / num (m * 2))
          /\ Actuarial.ax a 2 m = Ok (num (m - 1) / num (m * 2))).
Proof.
  eexists. split; [vm_compute; reflexivity|].
  split; [compute_done|].
  apply (C6_annuity_fallback _ 2 1 1). compute_done.
Defined.

(** Where [D(2) = 0], twice-yearly payments give [aax(2, m=2) = 3/4], not 1,
    and [aaxn(2, 1, m=2)] raises instead of returning a fallback. *)
Lemma C6_counterexample :
  exists a, Sample.act Sample.pow_half_at_1 = Ok a
    /\ Actuarial.Dx a 2 = Ok 0
    /\ Actuarial.aax a 2 2 = Ok (num 3 / num 4)
    /\ Actuarial.aax a 2 2 <> Ok 1
    /\ Actuarial.aaxn a 2 1 2 = Raise ZeroDivisionError.
Proof.
  eexists. split; [vm_compute; reflexivity|]. repeat split; compute_done.
Qed.

(** ** Mortality tables *)

Lemma Sample_table_built : Sample.table = Ok Sample.table_inst.
Proof. reflexivity. Qed.

(** Survivor counts derived from death rates: half of the radix dies in the
    first year and everybody left in the second. *)
Example of_q_x_compounds :
  MortalityTable.l_x <$> MortalityTable.of_q_x [num 500; num 1000]
  = Ok [num 100000; num 50000; 0].
Proof. compute_done. Qed.

Lemma py_getitem_nonneg {A} (l : list A) (x : Z) :
  (0 <= x)%Z ->
  py_getitem l x = match l !! Z.to_nat x with
                   | Some v => Ok v
                   | None => Raise IndexError
                   end.
Proof.
  intros Hx. unfold py_getitem, py_pos.
  destruct (decide (x < 0)%Z); [lia|].
  destruct (decide (x < 0)%Z); [lia|]. reflexivity.
Qed.

Lemma py_getitem_last {A} (l : list A) (v : A) :
  py_getitem (l ++ [v]) (-1) = Ok v.
Proof.
  unfold py_getitem, py_pos, py_len. rewrite length_app. simpl.
  destruct (decide (-1 < 0)%Z); [|lia].
  destruct (decide (_ < 0)%Z); [lia|].
  replace (Z.to_nat (-1 + Z.of_nat (length l + 1))) with (length l) by lia.
  by rewrite list_lookup_middle.
Qed.

Lemma py_getitem_last_nonempty {A} (l : list A) :
  l <> [] -> exists v, py_getitem l (-1) = Ok v /\ v ∈ l.
Proof.
  destruct l as [|a l] using rev_ind; [done|]. intros _.
  exists a. rewrite py_getitem_last. set_solver.
Qed.

Lemma py_index_found (l : list Qc) (v : Qc) :
  v ∈ l -> exists i, py_index l v = Ok i.
Proof.
  intros Hv. unfold py_index.
  destruct (list_find_elem_of (fun y => y = v) l v Hv eq_refl) as [[i y] ->].
  by eexists.
Qed.

Lemma py_index_first (l : list Qc) (v : Qc) (i : Z) :
  py_index l v = Ok i ->
  (0 <= i)%Z /\ l !! Z.to_nat i = Some v
  /\ forall j y, l !! j = Some y -> (j < Z.to_nat i)%nat -> y <> v.
Proof.
  unfold py_index. destruct (list_find _ l) as [[k y]|] eqn:E; [|done].
  intros [= <-]. apply list_find_Some in E as (Hk & -> & Hmin).
  rewrite Nat2Z.id. split; [lia|]. split; [done|]. exact Hmin.
Qed.

(** What [__init__] leaves in [w]: one less than the position of the first
    zero of the stored survivor counts. *)
Lemma MortalityTable_init_w l_x q_x nt perc mt :
  MortalityTable.init l_x q_x nt perc = Ok mt ->
  py_index (MortalityTable.l_x mt) 0 = Ok (MortalityTable.w mt + 1)%Z.
Proof.
  unfold MortalityTable.init. intros H.
  apply bind_Ok in H as (l1 & _ & H).
  apply bind_Ok in H as (last & _ & H).
  apply bind_Ok in H as (w1 & Hw & [= <-]). simpl.
  destruct (decide (0%Z = 0%Z)); [|done].
  apply bind_Ok in Hw as (i & Hi & [= <-]).
  rewrite Hi. f_equal. lia.
Qed.

(** C7 (amended): constructing a MortalityTable from survivor counts that
    are not empty (and no legacy table) never raises, whatever the counts
    are: nothing is validated, and the counts are stored as they are, with
    a zero appended unless the last one is zero. *)
Theorem C7_construction_validates_nothing
    (l_x q_x : list Qc) (perc : Qc) :
  l_x <> [] ->
  exists mt last,
    py_getitem l_x (-1) = Ok last
    /\ MortalityTable.init l_x q_x None perc = Ok mt
    /\ MortalityTable.l_x mt = (if decide (last <> 0) then l_x ++ [0] else l_x)
    /\ MortalityTable.q_x mt = q_x.
Proof.
  intros Hne. unfold MortalityTable.init.
  destruct (decide (l_x = [])); [done|]. simpl.
  destruct (py_getitem_last_nonempty l_x Hne) as (last & Hlast & Hin).
  rewrite Hlast. simpl.
  destruct (decide (0%Z = 0%Z)); [|done].
  set (l2 := if decide (last <> 0) then l_x ++ [0] else l_x).
  assert (Hz : (0 : Qc) ∈ l2).
  { unfold l2. destruct (decide (last <> 0)) as [|Heq]; [set_solver|].
    apply dec_stable in Heq. by subst last. }
  destruct (py_index_found l2 0 Hz) as [i ->]. simpl.
  eexists _, last. repeat split; done.
Qed.

Lemma C7_construction_validates_nothing_witness :
  [num 1; num 2] <> []
  /\ exists mt last,
       py_getitem [num 1; num 2] (-1) = Ok last
       /\ MortalityTable.init [num 1; num 2] [] None (num 100) = Ok mt
       /\ MortalityTable.l_x mt
          = (if decide (last <> 0) then [num 1; num 2] ++ [0]
             else [num 1; num 2])
       /\ MortalityTable.q_x mt = [].
Proof.
  split; [done|].
  apply (C7_construction_validates_nothing [num 1; num 2] [] (num 100)).
  done.
Defined.

(** Negative and increasing survivor counts are accepted, and so are empty
    ones, for which the table starts from the default radix. *)
Lemma C7_counterexample :
  MortalityTable.l_x <$> MortalityTable.of_l_x [] = Ok [num 100000; 0]
  /\ MortalityTable.l_x <$> MortalityTable.of_l_x [num (-5)] = Ok [num (-5); 0]
  /\ MortalityTable.l_x <$> MortalityTable.of_l_x [num 1; num 2]
     = Ok [num 1; num 2; 0].
Proof. repeat split; compute_done. Qed.

(** C2 (amended): for every constructed MortalityTable, [w + 1] is the
    smallest index at which the survivor sequence is zero: [l[w+1] = 0] and
    [l[x]] is not zero for every [0 <= x <= w] (and so positive when no
    survivor count is negative). *)
Theorem C2_w_precedes_first_zero
    (l_x q_x : list Qc) (nt : option (Z * list Qc)) (perc : Qc)
    (mt : MortalityTable.inst) :
  MortalityTable.init l_x q_x nt perc = Ok mt ->
  (-1 <= MortalityTable.w mt)%Z
  /\ py_getitem (MortalityTable.l_x mt) (MortalityTable.w mt + 1) = Ok 0
  /\ forall x : Z, (0 <= x <= MortalityTable.w mt)%Z ->
       exists v, py_getitem (MortalityTable.l_x mt) x = Ok v /\ v <> 0
                 /\ (Forall (fun u => 0 <= u) (MortalityTable.l_x mt) -> 0 < v).
Proof.
  intros H. apply MortalityTable_init_w, py_index_first in H as (Hw & Hz & Hmin).
  split; [lia|]. split.
  - rewrite py_getitem_nonneg by done. by rewrite Hz.
  - intros x Hx.
    assert (Hlt : (Z.to_nat x < Z.to_nat (MortalityTable.w mt + 1))%nat) by lia.
    destruct (MortalityTable.l_x mt !! Z.to_nat x) as [v|] eqn:E.
    + exists v. rewrite py_getitem_nonneg by lia. rewrite E.
      split; [done|]. assert (Hv : v <> 0) by (by eapply Hmin).
      split; [done|]. intros Hall.
      rewrite Forall_lookup in Hall. specialize (Hall _ _ E).
      apply Qcle_lt_or_eq in Hall as [|]; [done|congruence].
    + apply lookup_ge_None in E. apply lookup_lt_Some in Hz. lia.
Qed.

Lemma C2_w_precedes_first_zero_witness :
  exists mt, Sample.table = Ok mt
    /\ (-1 <= MortalityTable.w mt)%Z
    /\ py_getitem (MortalityTable.l_x mt) (MortalityTable.w mt + 1) = Ok 0
    /\ forall x : Z, (0 <= x <= MortalityTable.w mt)%Z ->
         exists v, py_getitem (MortalityTable.l_x mt) x = Ok v /\ v <> 0
                   /\ (Forall (fun u => 0 <= u) (MortalityTable.l_x mt) -> 0 < v).
Proof.
  eexists. split; [vm_compute; reflexivity|].
  apply (C2_w_precedes_first_zero Sample.l [] None (num 100)).
  vm_compute. reflexivity.
Defined.

(** For the survivor counts [[1000, 500, 0]] the constructor sets [w = 1],
    where 500 lives survive: [l[w]] is not zero. *)
Lemma C2_counterexample :
  exists mt, Sample.table = Ok mt
    /\ MortalityTable.w mt = 1%Z
    /\ py_getitem (MortalityTable.l_x mt) (MortalityTable.w mt) = Ok (num 500)
    /\ num 500 <> 0.
Proof.
  eexists. split; [vm_compute; reflexivity|]. repeat split; compute_done.
Qed.

(** ** Commutation sequences *)

(** The accessors share one shape: [l[x]] below [len(l)], 0 from there on. *)
Lemma accessor_nonneg (L : list Qc) (x : Z) :
  (0 <= x)%Z ->
  (if decide (x < py_len L)%Z then py_getitem L x else Ok 0)
  = Ok (default 0 (L !! Z.to_nat x)).
Proof.
  intros Hx. unfold py_len.
  destruct (decide (x < Z.of_nat (length L))%Z) as [Hlt|Hge].
  - rewrite py_getitem_nonneg by done.
    destruct (L !! Z.to_nat x) eqn:E; [done|].
    apply lookup_ge_None in E. lia.
  - rewrite (proj2 (lookup_ge_None L (Z.to_nat x))) by lia. done.
Qed.

Lemma accessor_beyond (L : list Qc) (x : Z) :
  (py_len L <= x)%Z -> default 0 (L !! Z.to_nat x) = 0.
Proof.
  unfold py_len. intros Hx.
  by rewrite (proj2 (lookup_ge_None L (Z.to_nat x))) by lia.
Qed.

Lemma py_slice_from_nonneg {A} (l : list A) (x : Z) :
  (0 <= x)%Z -> py_slice_from l x = drop (Z.to_nat x) l.
Proof.
  intros Hx. unfold py_slice_from, py_pos.
  destruct (decide (x < 0)%Z); [lia|done].
Qed.

Lemma length_tail_sums (D : list Qc) :
  length (Actuarial.tail_sums D) = length D.
Proof.
  unfold Actuarial.tail_sums, py_range, py_len.
  rewrite length_fmap, length_seqZ. lia.
Qed.

(** Entry [k] of the running sums is the sum of the entries from [k] on;
    past the end both sides are 0. *)
Lemma tail_sums_entry (D : list Qc) (k : nat) :
  default 0 (Actuarial.tail_sums D !! k) = py_sum (drop k D).
Proof.
  unfold Actuarial.tail_sums, py_range, py_len. rewrite list_lookup_fmap.
  destruct (decide (k < length D)%nat) as [Hlt|Hge].
  - rewrite lookup_seqZ_lt by lia. simpl.
    rewrite py_slice_from_nonneg by lia. by rewrite Z.add_0_l, Nat2Z.id.
  - rewrite lookup_seqZ_ge by lia. simpl. by rewrite drop_ge by lia.
Qed.

Section CommutationProofs.

Variable pow_half : Qc -> Qc.

Lemma D_x_fold_length r (l : list Qc) age D age' D' :
  foldlM (Actuarial.D_x_step r) (age, D) l = Ok (age', D') ->
  length D' = (length D + length l)%nat.
Proof.
  revert age D. induction l as [|j l IH]; intros age D; simpl.
  - intros [= _ <-]. lia.
  - intros H. apply bind_Ok in H as ([age1 D1] & Hstep & H).
    apply IH in H. rewrite H.
    unfold Actuarial.D_x_step in Hstep.
    apply bind_Ok in Hstep as (i & _ & Hstep).
    apply bind_Ok in Hstep as (v & _ & [= _ <-]).
    rewrite length_app. simpl. lia.
Qed.

Lemma C_x_fold_length r (l : list Qc) age lx0 C age' lx' C' :
  foldlM (Actuarial.C_x_step pow_half r) (age, lx0, C) l = Ok (age', lx', C') ->
  length C' = (length C + length l)%nat.
Proof.
  revert age lx0 C. induction l as [|j l IH]; intros age lx0 C; simpl.
  - intros [= _ _ <-]. lia.
  - intros H. apply bind_Ok in H as ([[age1 lx1] C1] & Hstep & H).
    apply IH in H. rewrite H.
    unfold Actuarial.C_x_step in Hstep.
    apply bind_Ok in Hstep as (i & _ & Hstep).
    apply bind_Ok in Hstep as (v & _ & [= _ _ <-]).
    rewrite length_app. simpl. lia.
Qed.

Lemma calc_C_x_length r (l C : list Qc) :
  Actuarial.calc_C_x pow_half r l = Ok C -> length C = length l.
Proof.
  unfold Actuarial.calc_C_x. destruct l as [|lx0 l']; [by intros [= <-]|].
  destruct (foldlM _ _ _) as [[[age' lx'] C']|] eqn:E; [|done].
  intros [= <-]. by apply C_x_fold_length in E.
Qed.

(** What [__init__] stores. *)
Lemma Actuarial_init_fields rate pers self :
  Actuarial.init pow_half rate pers = Ok self ->
  Actuarial.l_x self = Pers.l_x pers
  /\ Actuarial.w self = Pers.w pers
  /\ Actuarial.N_x self = Actuarial.tail_sums (Actuarial.D_x self)
  /\ Actuarial.M_x self = Actuarial.tail_sums (Actuarial.C_x self)
  /\ length (Actuarial.D_x self) = length (Actuarial.l_x self)
  /\ length (Actuarial.C_x self) = length (Actuarial.l_x self).
Proof.
  unfold Actuarial.init. intros H.
  apply bind_Ok in H as ([age D] & HD & H).
  apply bind_Ok in H as (C & HC & [= <-]). simpl.
  apply D_x_fold_length in HD. apply calc_C_x_length in HC.
  repeat split; done.
Qed.

(** C8 (amended): for every Actuarial built by the constructor and every
    age [x >= 0], [N(x)] is the sum of the entries of [D_x] from [x] on and
    [M(x)] the sum of the entries of [C_x] from [x] on, each computed by a
    [sum] of its own; at an age of the table these are the stored entries
    [N_x[x]] and [M_x[x]]. *)
Theorem C8_running_sums rate pers self (x : Z) :
  Actuarial.init pow_half rate pers = Ok self -> (0 <= x)%Z ->
  Actuarial.Nx self x = Ok (py_sum (py_slice_from (Actuarial.D_x self) x))
  /\ Actuarial.Mx self x = Ok (py_sum (py_slice_from (Actuarial.C_x self) x))
  /\ ((x < py_len (Actuarial.l_x self))%Z ->
      py_getitem (Actuarial.N_x self) x
      = Ok (py_sum (py_slice_from (Actuarial.D_x self) x))
      /\ py_getitem (Actuarial.M_x self) x
         = Ok (py_sum (py_slice_from (Actuarial.C_x self) x))).
Proof.
  intros Hinit Hx.
  destruct (Actuarial_init_fields _ _ _ Hinit) as (_ & _ & HN & HM & HlD & HlC).
  assert (HlN := length_tail_sums (Actuarial.D_x self)).
  assert (HlM := length_tail_sums (Actuarial.C_x self)).
  rewrite <- HN in HlN. rewrite <- HM in HlM.
  assert (HNx : default 0 (Actuarial.N_x self !! Z.to_nat x)
                = py_sum (py_slice_from (Actuarial.D_x self) x)).
  { by rewrite HN, tail_sums_entry, py_slice_from_nonneg. }
  assert (HMx : default 0 (Actuarial.M_x self !! Z.to_nat x)
                = py_sum (py_slice_from (Actuarial.C_x self) x)).
  { by rewrite HM, tail_sums_entry, py_slice_from_nonneg. }
  unfold Actuarial.Nx, Actuarial.Mx.
  rewrite !accessor_nonneg by done. rewrite HNx, HMx.
  split; [done|]. split; [done|].
  intros Hlen. unfold py_len in Hlen.
  rewrite <- HNx, <- HMx, !py_getitem_nonneg by done.
  split.
  - destruct (Actuarial.N_x self !! Z.to_nat x) eqn:E; [done|].
    apply lookup_ge_None in E. lia.
  - destruct (Actuarial.M_x self !! Z.to_nat x) eqn:E; [done|].
    apply lookup_ge_None in E. lia.
Qed.

End CommutationProofs.

Lemma C8_running_sums_witness :
  exists self, Sample.act_of_table Sample.pow_half_at_1 = Ok self
  /\ Actuarial.Nx self 0 = Ok (py_sum (py_slice_from (Actuarial.D_x self) 0))
  /\ Actuarial.Mx self 0 = Ok (py_sum (py_slice_from (Actuarial.C_x self) 0))
  /\ ((0 < py_len (Actuarial.l_x self))%Z ->
      py_getitem (Actuarial.N_x self) 0
      = Ok (py_sum (py_slice_from (Actuarial.D_x self) 0))
      /\ py_getitem (Actuarial.M_x self) 0
         = Ok (py_sum (py_slice_from (Actuarial.C_x self) 0))).
Proof.
  eexists. split; [vm_compute; reflexivity|].
  eapply (C8_running_sums Sample.pow_half_at_1 (RateFloat 0)
            (Pers.of_table Sample.table_inst) _ 0);
    [vm_compute; reflexivity | lia].
Defined.

(** In binary64 the sums do not telescope.  For the survivor counts
    [[1.0, 0.8, 0.1, 0.0]] and the rate [0.0], [w] is 2 and [D_x] holds the
    counts; at the age 0, [N(0)] is [1.9000000000000001] and
    [D(0) + N(1)] is [1.9], with the [sum] of either version of CPython. *)
Lemma C8_counterexample :
  Binary64.w Binary64.l = Ok 2%Z
  /\ exists D N N',
       Binary64.commutations Binary64.py_sum Binary64.pow_at_1 0%float
         Binary64.l = Ok (D, N)
       /\ Binary64.commutations Binary64.py_sum_compensated
            Binary64.pow_at_1 0%float Binary64.l = Ok (D, N')
       /\ (exists d0 n0 n1,
             Binary64.at_age D 0 = Ok d0 /\ Binary64.at_age N 0 = Ok n0
             /\ Binary64.at_age N 1 = Ok n1
             /\ n0 = 0x1.e666666666667p+0%float
             /\ PrimFloat.add d0 n1 = 0x1.e666666666666p+0%float
             /\ PrimFloat.eqb n0 (PrimFloat.add d0 n1) = false)
       /\ (exists d0 n0 n1,
             Binary64.at_age D 0 = Ok d0 /\ Binary64.at_age N' 0 = Ok n0
             /\ Binary64.at_age N' 1 = Ok n1
             /\ n0 = 0x1.e666666666667p+0%float
             /\ PrimFloat.add d0 n1 = 0x1.e666666666666p+0%float
             /\ PrimFloat.eqb n0 (PrimFloat.add d0 n1) = false).
Proof.
  split; [vm_compute; reflexivity|].
  do 3 eexists. split; [vm_compute; reflexivity|].
  split; [vm_compute; reflexivity|].
  split; do 3 eexists; repeat split; vm_compute; reflexivity.
Qed.

(** ** Queries by age *)

Lemma py_sum_slice_beyond (L : list Qc) (x : Z) :
  (py_len L <= x)%Z -> py_sum (py_slice_from L x) = 0.
Proof.
  unfold py_len. intros Hx.
  rewrite py_slice_from_nonneg by lia. by rewrite drop_ge by lia.
Qed.

Lemma positive_nonzero (d : Qc) : 0 < d -> d <> 0.
Proof. intros H ->. by apply Qclt_not_eq in H. Qed.

Ltac unfold_queries :=
  unfold Actuarial.AExn, Actuarial.aaxn, Actuarial.axn, Actuarial.aax,
    Actuarial.ax, Actuarial.taax, Actuarial.tax;
  unfold Actuarial.nEx, Actuarial.Ax, Actuarial.Axn, Actuarial.tAx;
  unfold Actuarial.Dx, Actuarial.Nx, Actuarial.Cx, Actuarial.Mx;
  rewrite !accessor_nonneg by lia; simpl.

Ltac annuity_returns :=
  unfold_queries;
  lazymatch goal with
  | |- context [decide (0 < ?d)] =>
      destruct (decide (0 < d)) as [Hpos|_]; simpl;
      [rewrite py_div_nonzero by (by apply positive_nonzero)|];
      simpl; by eexists
  end.

(** C5 (amended): for every Actuarial built by the constructor and all
    integers [x], [n], [t] that are not negative: the accessors [Dx], [Nx],
    [Cx], [Mx], [Sx] and [Rx] return a number, which is 0 from [len(l_x)]
    on; [nEx], [Ax], [Axn], [tAx] and [AExn] return a number when [D(x)] is
    not zero and raise [ZeroDivisionError] when [D(x) = 0]; the annuities
    [aaxn], [axn], [aax], [ax], [taax] and [tax] with [m = 1] return a
    number. *)
Theorem C5_queries_by_age
    (pow_half : Qc -> Qc) rate pers self (x n t : Z) :
  Actuarial.init pow_half rate pers = Ok self ->
  (0 <= x)%Z -> (0 <= n)%Z -> (0 <= t)%Z ->
  (exists d nn c mm ss rr : Qc,
      Actuarial.Dx self x = Ok d /\ Actuarial.Nx self x = Ok nn
      /\ Actuarial.Cx self x = Ok c /\ Actuarial.Mx self x = Ok mm
      /\ Actuarial.Sx self x = Ok ss /\ Actuarial.Rx self x = Ok rr
      /\ ((py_len (Actuarial.l_x self) <= x)%Z ->
          d = 0 /\ nn = 0 /\ c = 0 /\ mm = 0 /\ ss = 0 /\ rr = 0)
      /\ (d <> 0 ->
          returns (Actuarial.nEx self x n) /\ returns (Actuarial.Ax self x)
          /\ returns (Actuarial.Axn self x n)
          /\ returns (Actuarial.tAx self x t)
          /\ returns (Actuarial.AExn self x n))
      /\ (d = 0 ->
          Actuarial.nEx self x n = Raise ZeroDivisionError
          /\ Actuarial.Ax self x = Raise ZeroDivisionError
          /\ Actuarial.Axn self x n = Raise ZeroDivisionError
          /\ Actuarial.tAx self x t = Raise ZeroDivisionError
          /\ Actuarial.AExn self x n = Raise ZeroDivisionError))
  /\ returns (Actuarial.aaxn self x n 1)
  /\ returns (Actuarial.axn self x n 1)
  /\ returns (Actuarial.aax self x 1)
  /\ returns (Actuarial.ax self x 1)
  /\ returns (Actuarial.taax self x t 1)
  /\ returns (Actuarial.tax self x t 1).
Proof.
  intros Hinit Hx Hn Ht.
  destruct (Actuarial_init_fields _ _ _ _ Hinit)
    as (_ & _ & HN & HM & HlD & HlC).
  assert (HlN := length_tail_sums (Actuarial.D_x self)).
  assert (HlM := length_tail_sums (Actuarial.C_x self)).
  rewrite <- HN in HlN. rewrite <- HM in HlM.
  split; [|repeat split; annuity_returns].
  exists (default 0 (Actuarial.D_x self !! Z.to_nat x)),
         (default 0 (Actuarial.N_x self !! Z.to_nat x)),
         (default 0 (Actuarial.C_x self !! Z.to_nat x)),
         (default 0 (Actuarial.M_x self !! Z.to_nat x)).
  do 2 eexists.
  split; [unfold_queries; reflexivity|].
  split; [unfold_queries; reflexivity|].
  split; [unfold_queries; reflexivity|].
  split; [unfold_queries; reflexivity|].
  split; [reflexivity|]. split; [reflexivity|].
  split; [|split].
  - unfold py_len. intros Hbeyond.
    repeat split;
      try (apply accessor_beyond; unfold py_len; lia);
      apply py_sum_slice_beyond; unfold py_len; lia.
  - intros Hd. repeat split; unfold_queries;
      rewrite ?py_div_nonzero by done; simpl;
      rewrite ?py_div_nonzero by done; simpl; by eexists.
  - intros Hd. repeat split; unfold_queries; rewrite Hd;
      rewrite ?py_div_zero; simpl; reflexivity.
Qed.

Lemma C5_queries_by_age_witness :
  exists self, Sample.act_of_table Sample.pow_half_at_1 = Ok self
  /\ (exists d nn c mm ss rr : Qc,
      Actuarial.Dx self 1 = Ok d /\ Actuarial.Nx self 1 = Ok nn
      /\ Actuarial.Cx self 1 = Ok c /\ Actuarial.Mx self 1 = Ok mm
      /\ Actuarial.Sx self 1 = Ok ss /\ Actuarial.Rx self 1 = Ok rr
      /\ ((py_len (Actuarial.l_x self) <= 1)%Z ->
          d = 0 /\ nn = 0 /\ c = 0 /\ mm = 0 /\ ss = 0 /\ rr = 0)
      /\ (d <> 0 ->
          returns (Actuarial.nEx self 1 1) /\ returns (Actuarial.Ax self 1)
          /\ returns (Actuarial.Axn self 1 1)
          /\ returns (Actuarial.tAx self 1 1)
          /\ returns (Actuarial.AExn self 1 1))
      /\ (d = 0 ->
          Actuarial.nEx self 1 1 = Raise ZeroDivisionError
          /\ Actuarial.Ax self 1 = Raise ZeroDivisionError
          /\ Actuarial.Axn self 1 1 = Raise ZeroDivisionError
          /\ Actuarial.tAx self 1 1 = Raise ZeroDivisionError
          /\ Actuarial.AExn self 1 1 = Raise ZeroDivisionError))
  /\ returns (Actuarial.aaxn self 1 1 1)
  /\ returns (Actuarial.axn self 1 1 1)
  /\ returns (Actuarial.aax self 1 1)
  /\ returns (Actuarial.ax self 1 1)
  /\ returns (Actuarial.taax self 1 1 1)
  /\ returns (Actuarial.tax self 1 1 1).
Proof.
  eexists. split; [vm_compute; reflexivity|].
  eapply (C5_queries_by_age Sample.pow_half_at_1 (RateFloat 0)
            (Pers.of_table Sample.table_inst) _ 1 1 1);
    [vm_compute; reflexivity | lia | lia | lia].
Defined.

(** [Ax] raises at the terminal age 2 of the sample and at age 7 beyond the
    table, where [D] is 0; an accessor raises on an age below [-len(l_x)]. *)
Lemma C5_counterexample :
  exists self, Sample.act Sample.pow_half_at_1 = Ok self
    /\ Actuarial.Ax self 2 = Raise ZeroDivisionError
    /\ Actuarial.Ax self 7 = Raise ZeroDivisionError
    /\ Actuarial.Dx self (-5) = Raise IndexError.
Proof.
  eexists. split; [vm_compute; reflexivity|]. repeat split; compute_done.
Qed.

(** ** The joint-life combiner *)

(** C1 (evaluation of the code where it departs from the claim): for three
    lives aged 40 with survivor counts [[10, 5, 0]], [[8, 4, 0]] and
    [[6, 3, 0]], the combiner stores [l_x = [60, 5, 0, 0]] with [w = 1]:
    entry 0 is the product of the first and the last table only and entry 1 is
    the first table's count, where the product of the three aligned curves is
    480 and 60. *)
Theorem C1_three_lives_combined :
  exists tables p, Sample.three_tables = Ok tables
    /\ Pers.init tables Sample.three_ages = Ok p
    /\ Pers.w p = 1%Z
    /\ Pers.l_x p = [num 60; num 5; 0; 0]
    /\ Spec.l_combined tables Sample.three_ages 0 = num 480
    /\ Spec.l_combined tables Sample.three_ages 1 = num 60.
Proof.
  do 2 eexists. split; [vm_compute; reflexivity|].
  split; [vm_compute; reflexivity|]. repeat split; compute_done.
Qed.

(** C4 (evaluation of the code where it departs from the claim): the joint
    model of the single table [[1000, 500, 0]] with offset 0 holds
    [l_x = [1000000, 500, 0, 0]], not the table's [[1000, 500, 0]], and its
    first death rate is 999.5 per mille where the table's is 500. *)
Theorem C4_single_life_not_a_copy :
  exists p, Pers.of_table_single Sample.table_inst = Ok p
    /\ MortalityTable.l_x Sample.table_inst = [num 1000; num 500; 0]
    /\ Pers.l_x p = [num 1000000; num 500; 0; 0]
    /\ Pers.q_x p = [num 1999 / num 2; num 1000; 1]
    /\ Pers.calc_q_x (MortalityTable.l_x Sample.table_inst)
       = Ok [num 500; num 1000].
Proof.
  eexists. split; [vm_compute; reflexivity|]. repeat split; compute_done.
Qed.

(** ** Discounted deaths *)

Section DiscountedDeaths.

Variable pow_half : Qc -> Qc.

Lemma C_x_step_inv r age lx0 C lx1 st :
  Actuarial.C_x_step pow_half r (age, lx0, C) lx1 = Ok st ->
  exists i v, Actuarial.call_rate r (age + 1) = Ok i
    /\ py_div 1 (1 + i) = Ok v
    /\ st = ((age + 1)%Z, lx1,
             C ++ [py_pow v (age + 1 + 1) * (lx0 - lx1) * pow_half (1 + i)]).
Proof.
  unfold Actuarial.C_x_step. intros H.
  apply bind_Ok in H as (i & Hi & H).
  apply bind_Ok in H as (v & Hv & [= <-]).
  by exists i, v.
Qed.

(** The loop only appends to [self.C_x]. *)
Lemma C_x_fold_prefix r (l : list Qc) age lx0 C age' lx' C' :
  foldlM (Actuarial.C_x_step pow_half r) (age, lx0, C) l = Ok (age', lx', C') ->
  exists ext, C' = C ++ ext.
Proof.
  revert age lx0 C. induction l as [|j l IH]; intros age lx0 C; simpl.
  - intros [= _ _ <-]. exists []. by rewrite app_nil_r.
  - intros H. apply bind_Ok in H as (st & Hstep & H).
    apply C_x_step_inv in Hstep as (i & v & _ & _ & ->).
    apply IH in H as [ext ->]. eexists. by rewrite <- app_assoc.
Qed.

(** The entry appended for the [k]-th survivor count [l[k]] holds the
    difference between the count before it ([lx0] for the first) and
    [l[k]]. *)
Lemma C_x_fold_entries r (l : list Qc) age lx0 C age' lx' C' (k : nat) lxk :
  foldlM (Actuarial.C_x_step pow_half r) (age, lx0, C) l = Ok (age', lx', C') ->
  l !! k = Some lxk ->
  exists i v, Actuarial.call_rate r (age + 1 + Z.of_nat k) = Ok i
    /\ py_div 1 (1 + i) = Ok v
    /\ C' !! (length C + k)%nat
       = Some (py_pow v (age + 2 + Z.of_nat k)
               * ((match k with
                   | O => lx0
                   | S k' => default 0 (l !! k')
                   end) - lxk)
               * pow_half (1 + i)).
Proof.
  revert age lx0 C k. induction l as [|j l IH]; intros age lx0 C k; [done|].
  simpl. intros H Hk.
  apply bind_Ok in H as (st & Hstep & H).
  apply C_x_step_inv in Hstep as (i & v & Hi & Hv & ->).
  destruct k as [|k].
  - injection Hk as ->. exists i, v.
    rewrite Z.add_0_r. split; [done|]. split; [done|].
    apply C_x_fold_prefix in H as [ext ->].
    rewrite <- app_assoc, Nat.add_0_r. simpl.
    rewrite list_lookup_middle by done.
    by replace (age + 2 + Z.of_nat 0)%Z with (age + 1 + 1)%Z by lia.
  - simpl in Hk.
    destruct (IH _ _ _ _ H Hk) as (i' & v' & Hi' & Hv' & HC).
    exists i', v'.
    replace (age + 1 + Z.of_nat (S k))%Z with (age + 1 + 1 + Z.of_nat k)%Z
      by lia.
    split; [done|]. split; [done|].
    rewrite length_app in HC. simpl in HC.
    replace (length C + S k)%nat with (length C + 1 + k)%nat by lia.
    rewrite HC. f_equal.
    replace (age + 1 + 2 + Z.of_nat k)%Z with (age + 2 + Z.of_nat (S k))%Z
      by lia.
    by destruct k.
Qed.

(** What the constructor stores in [C_x]: at age 0 the difference
    [l[0] - l[0]], and at every later age [x] the deaths between ages
    [x - 1] and [x], discounted as for age [x]. *)
Lemma C_x_entry rate pers self (x : Z) (lx : Qc) :
  Actuarial.init pow_half rate pers = Ok self ->
  (0 <= x)%Z ->
  Actuarial.l_x self !! Z.to_nat x = Some lx ->
  exists i v, Actuarial.call_rate (Actuarial.rate self) x = Ok i
    /\ py_div 1 (1 + i) = Ok v
    /\ Actuarial.Cx self x
       = Ok (py_pow v (x + 1)
             * ((if decide (x = 0%Z) then lx
                 else Spec.lx_or_0 (Actuarial.l_x self) (x - 1)) - lx)
             * pow_half (1 + i)).
Proof.
  unfold Actuarial.init. intros H Hx Hlx.
  apply bind_Ok in H as ([age D] & _ & H).
  apply bind_Ok in H as (C & HC & [= <-]). simpl in *.
  unfold Actuarial.calc_C_x in HC.
  destruct (Pers.l_x pers) as [|lx0 l] eqn:El; [done|].
  destruct (foldlM _ _ _) as [[[age' lx'] C']|] eqn:E; [|done].
  injection HC as <-.
  destruct (C_x_fold_entries _ _ _ _ _ _ _ _ _ _ E Hlx) as (i & v & Hi & Hv & HC).
  exists i, v.
  replace (-1 + 1 + Z.of_nat (Z.to_nat x))%Z with x in Hi by lia.
  split; [done|]. split; [done|].
  unfold Actuarial.Cx. rewrite accessor_nonneg by done. simpl in *.
  rewrite HC. simpl. do 3 f_equal; [f_equal; lia|].
  destruct (decide (x = 0%Z)) as [->|Hne].
  - simpl in *. congruence.
  - destruct (Z.to_nat x) as [|k] eqn:Ek; [lia|].
    unfold Spec.lx_or_0. destruct (decide (0 <= x - 1)%Z); [|lia].
    by replace (Z.to_nat (x - 1)) with k by lia.
Qed.

(** In every Actuarial built from a non-empty table, [C(0) = 0]. *)
Lemma C_x_at_age_0 rate pers self :
  Actuarial.init pow_half rate pers = Ok self ->
  Actuarial.l_x self <> [] ->
  Actuarial.Cx self 0 = Ok 0.
Proof.
  intros H Hne.
  destruct (Actuarial.l_x self) as [|lx l] eqn:El; [done|].
  destruct (C_x_entry rate pers self 0 lx H) as (i & v & _ & _ & ->);
    [lia | by rewrite El |].
  f_equal. destruct (decide (0%Z = 0%Z)); [|done]. ring.
Qed.

End DiscountedDeaths.

(** C3 (evaluation of the code where it departs from the claim): in the
    Actuarial built from the survivor counts [[1000, 500, 0]] at rate 0.0, the
    stored [C_x] is [[0, 500, 500]]: [C(0)] is 0 where the claimed formula
    gives the 500 deaths of age 0, and [C(2)] is 500 where it gives 0. *)
Theorem C3_discounted_deaths_lag_one_age :
  exists self, Sample.act_of_table Sample.pow_half_at_1 = Ok self
    /\ Actuarial.C_x self = [0; num 500; num 500]
    /\ Actuarial.Cx self 0 = Ok 0
    /\ Spec.C Sample.pow_half_at_1 (fun _ => 0) Sample.l 0 = num 500
    /\ Actuarial.Cx self 2 = Ok (num 500)
    /\ Spec.C Sample.pow_half_at_1 (fun _ => 0) Sample.l 2 = 0.
Proof.
  eexists. split; [vm_compute; reflexivity|]. repeat split; compute_done.
Qed.

(** ** The length of the joint survivor curve *)

Lemma py_setitem_length {A} (l l' : list A) (i : Z) (v : A) :
  (0 <= i)%Z -> py_setitem l i v = Ok l' ->
  (i < py_len l)%Z /\ length l' = length l.
Proof.
  unfold py_setitem, py_pos. intros Hi.
  destruct (decide (i < 0)%Z); [lia|].
  destruct (decide (0 <= i < py_len l)%Z); [|done].
  intros [= <-]. rewrite length_insert. split; [lia|done].
Qed.

(** An iteration of the loop over [range(0, self.w)] that does not raise
    found [i] inside the list and made the list one longer. *)
Lemma l_x_step_length loc (l l' : list Qc) (i : Z) :
  (0 <= i)%Z -> Pers.l_x_step loc l i = Ok l' ->
  (i < py_len l)%Z /\ length l' = S (length l).
Proof.
  intros Hi. unfold Pers.l_x_step.
  destruct (decide (i < py_len l)%Z) as [Hlt|Hge]; intros H;
    apply bind_Ok in H as ([mt os] & _ & H);
    destruct (decide (i + os < py_len (MortalityTable.l_x mt))%Z).
  - apply bind_Ok in H as (a & _ & H). apply bind_Ok in H as (b & _ & H).
    apply py_setitem_length in H as [_ ->]; [|done].
    rewrite length_app. simpl. split; [done|lia].
  - apply py_setitem_length in H as [_ ->]; [|done].
    rewrite length_app. simpl. split; [done|lia].
  - apply bind_Ok in H as (a & _ & H). apply bind_Ok in H as (b & _ & H).
    apply py_setitem_length in H as [? _]; [lia|done].
  - apply py_setitem_length in H as [? _]; [lia|done].
Qed.

Lemma l_x_fold_length loc (ages : list Z) (l l' : list Qc) :
  Forall (fun i => 0 <= i)%Z ages ->
  foldlM (Pers.l_x_step loc) l ages = Ok l' ->
  length l' = (length l + length ages)%nat /\ (ages <> [] -> l <> []).
Proof.
  revert l. induction ages as [|i ages IH]; intros l Hall; simpl.
  - intros [= <-]. split; [lia|done].
  - intros H. apply bind_Ok in H as (l1 & Hstep & H).
    apply Forall_cons in Hall as [Hi Hall].
    apply l_x_step_length in Hstep as [Hlt Hlen]; [|done].
    apply IH in H as [-> _]; [|done]. split; [lia|].
    intros _ ->. unfold py_len in Hlt. simpl in Hlt. lia.
Qed.

(** In a joint model that the constructor built with [w > 0], every age up
    to [w] is an index of [l_x]. *)
Lemma Pers_init_w_below_len tables age_list p :
  Pers.init tables age_list = Ok p ->
  (0 < Pers.w p)%Z -> (Pers.w p < py_len (Pers.l_x p))%Z.
Proof.
  unfold Pers.init. intros H Hw.
  apply bind_Ok in H as (age_min & _ & H).
  apply bind_Ok in H as ([w1 loc1] & _ & H).
  apply bind_Ok in H as (mt0 & _ & H).
  apply bind_Ok in H as (os0 & _ & H).
  apply bind_Ok in H as (loc2 & _ & H).
  apply bind_Ok in H as (l1 & Hl & H).
  apply bind_Ok in H as (q1 & _ & H).
  apply bind_Ok in H as (e1 & _ & [= <-]). simpl in *.
  apply l_x_fold_length in Hl as [Hlen Hne].
  - unfold py_len. rewrite Hlen. unfold py_range. rewrite length_seqZ.
    assert (py_slice_from (MortalityTable.l_x mt0) os0 <> []) as Hl0.
    { apply Hne. unfold py_range. rewrite seqZ_cons by lia. done. }
    destruct (py_slice_from (MortalityTable.l_x mt0) os0); [done|].
    simpl. lia.
  - unfold py_range. apply Forall_seqZ. intros; lia.
Qed.

(** * Further properties of the commutation sequences *)

Section Construction.

Variable pow_half : Qc -> Qc.

Lemma foldlM_cons {A B} (f : A -> B -> result A) (a : A) (b : B) l :
  foldlM f a (b :: l) = f a b ≫= (fun a' => foldlM f a' l).
Proof. reflexivity. Qed.

Lemma py_div_Ok (a b v : Qc) : py_div a b = Ok v <-> b <> 0 /\ v = a / b.
Proof.
  unfold py_div. destruct (decide (b = 0)); split.
  - done.
  - by intros [? _].
  - by intros [= <-].
  - by intros [_ ->].
Qed.

Lemma D_x_step_Ok r age D j st :
  Actuarial.D_x_step r (age, D) j = Ok st <->
  exists i, Actuarial.call_rate r age = Ok i /\ 1 + i <> 0
    /\ st = ((age + 1)%Z, D ++ [py_pow (1 / (1 + i)) age * j]).
Proof.
  unfold Actuarial.D_x_step. rewrite bind_Ok. split.
  - intros (i & Hi & H). apply bind_Ok in H as (v & Hv & [= <-]).
    apply py_div_Ok in Hv as [Hne ->]. by exists i.
  - intros (i & Hi & Hne & ->). exists i. split; [done|].
    by rewrite py_div_nonzero.
Qed.

Lemma C_x_step_Ok r age lx0 C lx1 st :
  Actuarial.C_x_step pow_half r (age, lx0, C) lx1 = Ok st <->
  exists i, Actuarial.call_rate r (age + 1) = Ok i /\ 1 + i <> 0
    /\ st = ((age + 1)%Z, lx1,
             C ++ [py_pow (1 / (1 + i)) (age + 1 + 1) * (lx0 - lx1)
                   * pow_half (1 + i)]).
Proof.
  unfold Actuarial.C_x_step. rewrite bind_Ok. split.
  - intros (i & Hi & H). apply bind_Ok in H as (v & Hv & [= <-]).
    apply py_div_Ok in Hv as [Hne ->]. by exists i.
  - intros (i & Hi & Hne & ->). exists i. split; [done|].
    by rewrite py_div_nonzero.
Qed.

(** When the loop that fills [D_x] ends without an exception, the rate was
    usable at each of the ages it visited. *)
Lemma D_x_fold_returned r (l : list Qc) age D :
  returns (foldlM (Actuarial.D_x_step r) (age, D) l) ->
  forall k : nat, (k < length l)%nat ->
    Actuarial.rate_ok r (age + Z.of_nat k).
Proof.
  revert age D. induction l as [|j l IH]; intros age D.
  - simpl. intros _ k Hk. lia.
  - rewrite foldlM_cons. intros [st H].
    apply bind_Ok in H as ([age1 D1] & Hstep & H).
    apply D_x_step_Ok in Hstep as (i & Hi & Hne & [= -> ->]).
    intros [|k] Hk.
    + rewrite Z.add_0_r. by exists i.
    + replace (age + Z.of_nat (S k))%Z with (age + 1 + Z.of_nat k)%Z by lia.
      eapply IH; [by eexists | simpl in Hk; lia].
Qed.

(** What [Actuarial(rate, pers)] needs from its rate: if the constructor
    returns, then at every age [0 <= age < len(pers.l_x)] the stored rate
    could be called and was not [-1].  On a non-empty table, a rate that is
    neither a [float] nor callable raises [TypeError], and the constant rate
    [-1.0] raises [ZeroDivisionError]. *)
Theorem Actuarial_init_rate_errors rate pers :
  (returns (Actuarial.init pow_half rate pers) ->
   forall age : Z, (0 <= age < py_len (Pers.l_x pers))%Z ->
     Actuarial.rate_ok (Actuarial.store_rate rate) age)
  /\ (Pers.l_x pers <> [] ->
      Actuarial.init pow_half RateOther pers = Raise TypeError)
  /\ (Pers.l_x pers <> [] ->
      Actuarial.init pow_half (RateFloat (- (1))) pers
      = Raise ZeroDivisionError).
Proof.
  split; [|split].
  - unfold py_len. intros [self H]. unfold Actuarial.init in H.
    apply bind_Ok in H as ([age' D] & HD & _).
    intros age Hage.
    replace age with (0 + Z.of_nat (Z.to_nat age))%Z by lia.
    eapply D_x_fold_returned; [by eexists | lia].
  - intros Hne. unfold Actuarial.init.
    by destruct (Pers.l_x pers) as [|j l].
  - intros Hne. unfold Actuarial.init.
    destruct (Pers.l_x pers) as [|j l]; [done|].
    rewrite foldlM_cons.
    assert (Actuarial.D_x_step (Actuarial.store_rate (RateFloat (- (1))))
              (0%Z, []) j = Raise ZeroDivisionError) as ->; [|done].
    reflexivity.
Qed.

(** The loop only appends to [self.D_x]. *)
Lemma D_x_fold_prefix r (l : list Qc) age D age' D' :
  foldlM (Actuarial.D_x_step r) (age, D) l = Ok (age', D') ->
  exists ext, D' = D ++ ext.
Proof.
  revert age D. induction l as [|j l IH]; intros age D.
  - simpl. intros [= _ <-]. exists []. by rewrite app_nil_r.
  - rewrite foldlM_cons. intros H.
    apply bind_Ok in H as ([age1 D1] & Hstep & H).
    apply D_x_step_Ok in Hstep as (i & _ & _ & [= -> ->]).
    apply IH in H as [ext ->]. eexists. by rewrite <- app_assoc.
Qed.

(** Entry [k] of what the loop appends is the [k]-th survivor count
    discounted over [age + k] years. *)
Lemma D_x_fold_entries r (l : list Qc) age D age' D' (k : nat) lxk :
  foldlM (Actuarial.D_x_step r) (age, D) l = Ok (age', D') ->
  l !! k = Some lxk ->
  exists i, Actuarial.call_rate r (age + Z.of_nat k) = Ok i /\ 1 + i <> 0
    /\ D' !! (length D + k)%nat
       = Some (py_pow (1 / (1 + i)) (age + Z.of_nat k) * lxk).
Proof.
  revert age D k. induction l as [|j l IH]; intros age D k; [done|].
  rewrite foldlM_cons. intros H Hk.
  apply bind_Ok in H as ([age1 D1] & Hstep & H).
  apply D_x_step_Ok in Hstep as (i & Hi & Hne & [= -> ->]).
  destruct k as [|k].
  - injection Hk as ->. exists i.
    rewrite Z.add_0_r, Nat.add_0_r. split; [done|]. split; [done|].
    apply D_x_fold_prefix in H as [ext ->].
    rewrite <- app_assoc. simpl. by rewrite list_lookup_middle.
  - simpl in Hk. destruct (IH _ _ _ H Hk) as (i' & Hi' & Hne' & HD).
    exists i'.
    replace (age + Z.of_nat (S k))%Z with (age + 1 + Z.of_nat k)%Z by lia.
    split; [done|]. split; [done|].
    rewrite length_app in HD. simpl in HD.
    by replace (length D + S k)%nat with (length D + 1 + k)%nat by lia.
Qed.

(** In a built Actuarial, [D(x)] is the survivor count [l[x]] discounted
    over [x] years at the rate of age [x]. *)
Theorem D_x_entry rate pers self (x : Z) (lx : Qc) :
  Actuarial.init pow_half rate pers = Ok self ->
  (0 <= x)%Z ->
  Actuarial.l_x self !! Z.to_nat x = Some lx ->
  exists i, Actuarial.call_rate (Actuarial.rate self) x = Ok i
    /\ 1 + i <> 0
    /\ Actuarial.Dx self x = Ok (py_pow (1 / (1 + i)) x * lx).
Proof.
  unfold Actuarial.init. intros H Hx Hlx.
  apply bind_Ok in H as ([age D] & HD & H).
  apply bind_Ok in H as (C & _ & [= <-]). simpl in *.
  destruct (D_x_fold_entries _ _ _ _ _ _ _ _ HD Hlx) as (i & Hi & Hne & HDx).
  replace (0 + Z.of_nat (Z.to_nat x))%Z with x in * by lia.
  exists i. split; [done|]. split; [done|].
  unfold Actuarial.Dx. rewrite accessor_nonneg by done. simpl in *.
  by rewrite HDx.
Qed.

Lemma Actuarial_init_copies rate pers self :
  Actuarial.init pow_half rate pers = Ok self ->
  Actuarial.rate self = Actuarial.store_rate rate
  /\ Actuarial.as_pers self = pers.
Proof.
  unfold Actuarial.init. intros H.
  apply bind_Ok in H as ([? ?] & _ & H).
  apply bind_Ok in H as (? & _ & [= <-]).
  unfold Actuarial.as_pers. simpl. by destruct pers.
Qed.

(** The four stored sequences have one entry for each entry of [l_x], and
    [l_x], [q_x], [e_x] and [w] are those of [pers]. *)
Theorem commutation_sequences_aligned rate pers self :
  Actuarial.init pow_half rate pers = Ok self ->
  length (Actuarial.D_x self) = length (Pers.l_x pers)
  /\ length (Actuarial.N_x self) = length (Pers.l_x pers)
  /\ length (Actuarial.C_x self) = length (Pers.l_x pers)
  /\ length (Actuarial.M_x self) = length (Pers.l_x pers)
  /\ Actuarial.as_pers self = pers.
Proof.
  intros H.
  destruct (Actuarial_init_fields _ _ _ _ H) as (Hl & Hw & HN & HM & HD & HC).
  rewrite HN, HM, !length_tail_sums, HD, HC, Hl.
  repeat split; try done.
  by apply Actuarial_init_copies in H as [_ ?].
Qed.

End Construction.

(** * Further properties of the mortality table *)

(** The stored survivor counts always end with a zero; counts that were
    passed in are kept, with a zero added after them unless their last entry
    is already zero. *)
Theorem stored_l_x_ends_with_zero
    (l_x q_x : list Qc) (nt : option (Z * list Qc)) (perc : Qc)
    (mt : MortalityTable.inst) :
  MortalityTable.init l_x q_x nt perc = Ok mt ->
  py_getitem (MortalityTable.l_x mt) (-1) = Ok 0
  /\ (l_x <> [] ->
      exists last, py_getitem l_x (-1) = Ok last
        /\ MortalityTable.l_x mt
           = if decide (last = 0) then l_x else l_x ++ [0]).
Proof.
  unfold MortalityTable.init. intros H.
  apply bind_Ok in H as (l1 & Hl1 & H).
  apply bind_Ok in H as (last & Hlast & H).
  apply bind_Ok in H as (w1 & _ & [= <-]). simpl.
  split.
  - destruct (decide (last <> 0)) as [|Heq]; [apply py_getitem_last|].
    apply dec_stable in Heq. by subst last.
  - intros Hne. destruct (decide (l_x = [])); [done|].
    injection Hl1 as <-. exists last. split; [done|].
    destruct (decide (last <> 0)), (decide (last = 0)); done.
Qed.

(** The loop that derives survivor counts from death rates only appends,
    and each count it appends is the one before it times
    [1 - q / 1000]. *)
Lemma compound_fold (q l l' : list Qc) :
  l <> [] ->
  foldlM MortalityTable.compound_step l q = Ok l' ->
  length l' = (length l + length q)%nat
  /\ (forall j, (j < length l)%nat -> l' !! j = l !! j)
  /\ forall (k : nat) qk, q !! k = Some qk ->
       exists a, l' !! (length l - 1 + k)%nat = Some a
         /\ l' !! (length l + k)%nat = Some (a * (1 - qk / num 1000)).
Proof.
  revert l. induction q as [|val q IH]; intros l Hl.
  - simpl. intros [= <-]. split; [lia|]. split; done.
  - rewrite foldlM_cons. intros H.
    apply bind_Ok in H as (l1 & Hstep & H).
    unfold MortalityTable.compound_step in Hstep.
    apply bind_Ok in Hstep as (last & Hlast & [= <-]).
    assert (Hl1 : l ++ [last * (1 - val / num 1000)] <> [])
      by (by destruct l).
    destruct (IH _ Hl1 H) as (Hlen & Hkeep & Hent).
    rewrite length_app in Hlen, Hkeep, Hent. simpl in Hlen, Hkeep, Hent.
    assert (Hlast' : l !! (length l - 1)%nat = Some last).
    { destruct l as [|x l0] using rev_ind; [done|].
      rewrite py_getitem_last in Hlast. injection Hlast as ->.
      rewrite length_app. simpl.
      replace (length l0 + 1 - 1)%nat with (length l0) by lia.
      by rewrite list_lookup_middle. }
    assert (0 < length l)%nat by (destruct l; [done|simpl; lia]).
    split; [simpl; lia|]. split.
    + intros j Hj. rewrite Hkeep by lia. by rewrite lookup_app_l.
    + intros [|k] qk Hk.
      * injection Hk as ->. exists last.
        rewrite !Nat.add_0_r, !Hkeep by lia.
        rewrite lookup_app_l by lia. split; [done|].
        by rewrite list_lookup_middle.
      * simpl in Hk. destruct (Hent k qk Hk) as (a & Ha & Hb).
        exists a.
        replace (length l - 1 + S k)%nat with (length l + 1 - 1 + k)%nat
          by lia.
        replace (length l + S k)%nat with (length l + 1 + k)%nat by lia.
        done.
Qed.

(** Survivor counts derived from death rates start at the radix 100000,
    and each death rate [q[x]] takes [l[x]] to [l[x+1] = l[x] * (1 -
    q[x]/1000)]. *)
Theorem l_x_compounds_from_q_x
    (q_x : list Qc) (nt : option (Z * list Qc)) (perc : Qc)
    (mt : MortalityTable.inst) :
  MortalityTable.init [] q_x nt perc = Ok mt ->
  py_getitem (MortalityTable.l_x mt) 0 = Ok (num 100000)
  /\ forall (x : nat) (qx : Qc),
       MortalityTable.q_x mt !! x = Some qx ->
       exists a, MortalityTable.l_x mt !! x = Some a
         /\ MortalityTable.l_x mt !! S x = Some (a * (1 - qx / num 1000)).
Proof.
  unfold MortalityTable.init. intros H.
  apply bind_Ok in H as (l1 & Hl1 & H).
  apply bind_Ok in H as (last & Hlast & H).
  apply bind_Ok in H as (w1 & _ & [= <-]). simpl.
  destruct (decide ([] = [])) as [_|]; [|done].
  apply compound_fold in Hl1 as (Hlen & Hkeep & Hent); [|done].
  simpl in Hlen, Hkeep, Hent.
  assert (Hpre : forall j, (j < length l1)%nat ->
            (if decide (last <> 0) then l1 ++ [0] else l1) !! j = l1 !! j).
  { intros j Hj. destruct (decide (last <> 0)); [|done].
    by rewrite lookup_app_l. }
  split.
  - rewrite py_getitem_nonneg by lia.
    change (Z.to_nat 0) with 0%nat.
    rewrite Hpre by lia. by rewrite (Hkeep 0%nat) by lia.
  - intros x qx Hx. destruct (Hent x qx Hx) as (a & Ha & Hb).
    apply lookup_lt_Some in Hx.
    exists a. rewrite !Hpre by lia. done.
Qed.

(** ** The legacy rate table *)

Lemma nt_fold_saturated (perc : Qc) (vals : list Qc) (e : Qc) (q : list Qc) :
  ~ e < num 1000 ->
  foldl (MortalityTable.nt_step perc) (e, q) vals = (e, q).
Proof.
  intros He. induction vals as [|v vals IH]; [done|]. simpl.
  destruct (decide (e < num 1000)); done.
Qed.

Lemma nt_fold_kept (perc : Qc) (vals : list Qc) (e : Qc) (q : list Qc) :
  e < num 1000 ->
  Forall (fun v => v * perc / num 100 < num 1000) vals ->
  exists e', e' < num 1000
    /\ foldl (MortalityTable.nt_step perc) (e, q) vals
       = (e', q ++ ((fun v => v * perc / num 100) <$> vals)).
Proof.
  revert e q. induction vals as [|v vals IH]; intros e q He Hall.
  - exists e. simpl. by rewrite app_nil_r.
  - apply Forall_cons in Hall as [Hv Hall]. simpl.
    destruct (decide (e < num 1000)); [|done].
    destruct (IH _ (q ++ [v * perc / num 100]) Hv Hall) as (e' & He' & ->).
    exists e'. split; [done|]. by rewrite <- app_assoc.
Qed.

(** Reading a legacy table [[init, v1, v2, ...]] whose scaled rates all
    stay below 1000: the death rates are [init] zeros, then every rate times
    [perc/100], then a closing 1000 unless [perc] is 100. *)
Theorem legacy_rates_all_kept
    (q_x : list Qc) (init : Z) (vals : list Qc) (perc : Qc) :
  Forall (fun v => v * perc / num 100 < num 1000) vals ->
  MortalityTable.legacy_q_x q_x (Some (init, vals)) perc
  = py_repeat 0 init ++ ((fun v => v * perc / num 100) <$> vals)
    ++ (if decide (perc <> num 100) then [num 1000] else []).
Proof.
  intros Hall. unfold MortalityTable.legacy_q_x.
  destruct (nt_fold_kept perc vals 0 (py_repeat 0 init)) as (e' & _ & ->);
    [compute_done | done |]. simpl.
  destruct (decide (perc <> num 100)); by simplify_list_eq.
Qed.

(** Once a scaled rate reaches 1000 it is the last one read: the rates
    after it in the legacy table are ignored. *)
Theorem legacy_rates_stop_at_1000
    (q_x : list Qc) (init : Z) (pre post : list Qc) (v perc : Qc) :
  Forall (fun u => u * perc / num 100 < num 1000) pre ->
  ~ v * perc / num 100 < num 1000 ->
  MortalityTable.legacy_q_x q_x (Some (init, pre ++ v :: post)) perc
  = py_repeat 0 init ++ ((fun u => u * perc / num 100) <$> pre)
    ++ [v * perc / num 100]
    ++ (if decide (perc <> num 100) then [num 1000] else []).
Proof.
  intros Hall Hv. unfold MortalityTable.legacy_q_x.
  rewrite foldl_app.
  destruct (nt_fold_kept perc pre 0 (py_repeat 0 init)) as (e' & He' & ->);
    [compute_done | done |].
  simpl. destruct (decide (e' < num 1000)); [|done].
  rewrite nt_fold_saturated by done. simpl.
  destruct (decide (perc <> num 100)); by simplify_list_eq.
Qed.

(** * Further properties of the joint-life combiner *)

Lemma py_getitem_in_range {A} (l : list A) (i : Z) :
  (0 <= i < py_len l)%Z ->
  exists v, py_getitem l i = Ok v /\ l !! Z.to_nat i = Some v.
Proof.
  unfold py_len. intros Hi. rewrite py_getitem_nonneg by lia.
  destruct (l !! Z.to_nat i) as [v|] eqn:E; [by exists v|].
  apply lookup_ge_None in E. lia.
Qed.

Lemma py_getitem_beyond {A} (l : list A) (i : Z) :
  (py_len l <= i)%Z -> py_getitem l i = Raise IndexError.
Proof.
  unfold py_len. intros Hi. rewrite py_getitem_nonneg by lia.
  by rewrite (proj2 (lookup_ge_None l (Z.to_nat i))) by lia.
Qed.

(** Without ages [min] raises [ValueError]; without tables the first table
    is missing and indexing raises [IndexError]. *)
Theorem Pers_init_without_input :
  (forall tables, Pers.init tables [] = Raise ValueError)
  /\ (forall a age_list, Pers.init [] (a :: age_list) = Raise IndexError).
Proof. split; reflexivity. Qed.

Lemma w_fold_raises tables (offsets : list Z) (n k : nat) st :
  (length offsets < length tables)%nat ->
  (k + n)%nat = length offsets ->
  foldlM (Pers.w_step tables offsets) st
         (seqZ (Z.of_nat k) (py_len tables - Z.of_nat k))
  = Raise IndexError.
Proof.
  unfold py_len. intros Hshort. revert k st.
  induction n as [|n IH]; intros k st Hk;
    rewrite seqZ_cons by lia; rewrite foldlM_cons;
    destruct (py_getitem_in_range tables (Z.of_nat k)) as (mt & Hmt & _);
    try (unfold py_len; lia).
  - assert (Pers.w_step tables offsets st (Z.of_nat k) = Raise IndexError)
      as ->; [|done].
    unfold Pers.w_step. rewrite Hmt. simpl.
    by rewrite py_getitem_beyond by (unfold py_len; lia).
  - destruct (py_getitem_in_range offsets (Z.of_nat k)) as (os & Hos & _);
      [unfold py_len; lia|].
    assert (exists st', Pers.w_step tables offsets st (Z.of_nat k) = Ok st')
      as [st' ->].
    { unfold Pers.w_step. rewrite Hmt. simpl. rewrite Hos. simpl.
      by eexists. }
    simpl.
    replace (Z.succ (Z.of_nat k)) with (Z.of_nat (S k)) by lia.
    replace (Z.pred (Z.of_nat (length tables) - Z.of_nat k))
      with (Z.of_nat (length tables) - Z.of_nat (S k))%Z by lia.
    apply IH. lia.
Qed.

Lemma bind_Ok_l {A B} (a : A) (f : A -> result B) : Ok a ≫= f = f a.
Proof. reflexivity. Qed.

Lemma bind_Raise_l {A B} (e : exn) (f : A -> result B) :
  Raise e ≫= f = Raise e.
Proof. reflexivity. Qed.

(** With fewer ages than tables the constructor raises [IndexError]. *)
Theorem Pers_init_too_few_ages tables (age_list : list Z) :
  age_list <> [] -> (length age_list < length tables)%nat ->
  Pers.init tables age_list = Raise IndexError.
Proof.
  intros Hne Hshort. unfold Pers.init.
  destruct (py_min age_list) as [m|] eqn:Em; [|by destruct age_list].
  rewrite bind_Ok_l.
  assert (Hfold :
    foldlM (Pers.w_step tables ((fun x => (x - m)%Z) <$> age_list))
           (0%Z, None) (py_range 0 (py_len tables)) = Raise IndexError).
  { unfold py_range.
    replace (py_len tables - 0)%Z with (py_len tables - Z.of_nat 0)%Z by lia.
    apply (w_fold_raises tables _ (length age_list) 0%nat);
      by rewrite length_fmap. }
  by rewrite Hfold.
Qed.

(** ** Two lives *)

(** [Pers([mt1, mt2], [a1, a2])] after the loops over the tables have run:
    [w] is set from the two tables and the loop over [range(0, w)] multiplies
    the first curve by the second. *)
Lemma Pers_init_two (mt1 mt2 : MortalityTable.inst) (a1 a2 : Z) :
  Pers.init [mt1; mt2] [a1; a2]
  = let os1 := (a1 - Z.min a1 a2)%Z in
    let os2 := (a2 - Z.min a1 a2)%Z in
    let d1 := (MortalityTable.w mt1 - os1)%Z in
    let d2 := (MortalityTable.w mt2 - os2)%Z in
    let w := if decide (d1 = 0%Z) then d2 else Z.min d1 d2 in
    l1 ← foldlM (Pers.l_x_step (Some (mt2, os2)))
                (py_slice_from (MortalityTable.l_x mt1) os1) (py_range 0 w);
    q1 ← Pers.calc_q_x l1;
    e1 ← Pers.calc_e_x l1;
    Ok {| Pers.l_x := l1; Pers.q_x := q1; Pers.e_x := e1; Pers.w := w |}.
Proof. reflexivity. Qed.

Lemma lx_or_0_in_range (l : list Qc) (i : Z) :
  (0 <= i < py_len l)%Z ->
  py_getitem l i = Ok (Spec.lx_or_0 l i).
Proof.
  intros Hi. destruct (py_getitem_in_range l i Hi) as (v & -> & Hv).
  unfold Spec.lx_or_0. destruct (decide (0 <= i)%Z); [|lia]. by rewrite Hv.
Qed.

Lemma lx_or_0_beyond (l : list Qc) (i : Z) :
  (py_len l <= i)%Z -> Spec.lx_or_0 l i = 0.
Proof.
  unfold py_len, Spec.lx_or_0. intros Hi.
  destruct (decide (0 <= i)%Z); [|done].
  by rewrite (proj2 (lookup_ge_None l (Z.to_nat i))) by lia.
Qed.

(** One iteration of the loop over [range(0, self.w)] that does not raise:
    it appends a zero and replaces entry [i] by its product with the other
    table's count at [i + os] (0 beyond that table). *)
Lemma l_x_step_Ok mt (os : Z) (l l' : list Qc) (i : Z) :
  (0 <= i)%Z -> (0 <= os)%Z ->
  Pers.l_x_step (Some (mt, os)) l i = Ok l' ->
  (i < py_len l)%Z
  /\ l' = <[Z.to_nat i := default 0 (l !! Z.to_nat i)
                          * Spec.lx_or_0 (MortalityTable.l_x mt) (i + os)]>
          (l ++ [0]).
Proof.
  intros Hi Hos H.
  destruct (l_x_step_length _ _ _ _ Hi H) as [Hlt _].
  split; [done|]. revert H. unfold Pers.l_x_step.
  destruct (decide (i < py_len l)%Z); [|done].
  unfold Pers.read_locals. rewrite bind_Ok_l.
  assert (Hin : (0 <= i < py_len (l ++ [0%Qc]))%Z).
  { unfold py_len in *. rewrite length_app. simpl. lia. }
  assert (Hset : forall v, py_setitem (l ++ [0]) i v
                           = Ok (<[Z.to_nat i := v]> (l ++ [0]))).
  { intros v. unfold py_setitem, py_pos.
    destruct (decide (i < 0)%Z); [lia|].
    destruct (decide (0 <= i < py_len (l ++ [0%Qc]))%Z); done. }
  destruct (py_getitem_in_range l i ltac:(lia)) as (a & _ & Ha).
  rewrite Ha. simpl default.
  destruct (decide (i + os < py_len (MortalityTable.l_x mt))%Z) as [Hb|Hb].
  - destruct (py_getitem_in_range (l ++ [0]) i Hin) as (a' & -> & Ha').
    rewrite lookup_app_l in Ha' by (apply lookup_lt_Some in Ha; lia).
    rewrite Ha in Ha'. injection Ha' as <-. simpl.
    rewrite lx_or_0_in_range by lia. simpl. rewrite Hset. by intros [= <-].
  - rewrite Hset. intros [= <-]. rewrite lx_or_0_beyond by lia.
    f_equal. ring.
Qed.

Lemma l_x_fold_entries mt (os : Z) (n a : nat) (l l' : list Qc) :
  (0 <= os)%Z ->
  foldlM (Pers.l_x_step (Some (mt, os))) l
         (seqZ (Z.of_nat a) (Z.of_nat n)) = Ok l' ->
  (forall t, (t < a)%nat -> l' !! t = l !! t)
  /\ (forall t, (a <= t < a + n)%nat ->
        l' !! t = Some (default 0 (l !! t)
                        * Spec.lx_or_0 (MortalityTable.l_x mt)
                                       (Z.of_nat t + os))).
Proof.
  intros Hos. revert a l. induction n as [|n IH]; intros a l.
  - simpl. intros [= <-]. split; [done|]. intros t Ht. lia.
  - rewrite seqZ_cons by lia. rewrite foldlM_cons. intros H.
    apply bind_Ok in H as (l1 & Hstep & H).
    apply l_x_step_Ok in Hstep as [Hlt ->]; [|lia|done].
    unfold py_len in Hlt. rewrite Nat2Z.id in H.
    replace (Z.succ (Z.of_nat a)) with (Z.of_nat (S a)) in H by lia.
    replace (Z.pred (Z.of_nat (S n))) with (Z.of_nat n) in H by lia.
    destruct (IH _ _ H) as [Hkeep Hent]. split.
    + intros t Ht. rewrite Hkeep by lia.
      rewrite list_lookup_insert_ne by lia. by rewrite lookup_app_l by lia.
    + intros t Ht. destruct (decide (t = a)) as [->|Hne].
      * rewrite Hkeep by lia.
        by rewrite list_lookup_insert_eq by (rewrite length_app; simpl; lia).
      * rewrite Hent by lia. rewrite list_lookup_insert_ne by lia.
        do 2 f_equal.
        destruct (decide (t < length l)%nat).
        -- by rewrite lookup_app_l by lia.
        -- rewrite lookup_app_r by lia.
           rewrite (proj2 (lookup_ge_None l t)) by lia.
           by destruct (t - length l)%nat as [|[|?]].
Qed.

(** For two lives the combined survivor curve is the product of the two
    aligned curves at every age below [w], a count beyond a table being 0;
    [w] is the smaller of the two tables' remaining spans, or the second
    one's when the first one's is 0. *)
Theorem Pers_two_lives (mt1 mt2 : MortalityTable.inst) (a1 a2 : Z)
    (p : Pers.inst) (t : Z) :
  Pers.init [mt1; mt2] [a1; a2] = Ok p ->
  (0 <= t < Pers.w p)%Z ->
  py_getitem (Pers.l_x p) t
  = Ok (Spec.lx_or_0 (MortalityTable.l_x mt1) (t + (a1 - Z.min a1 a2))
        * Spec.lx_or_0 (MortalityTable.l_x mt2) (t + (a2 - Z.min a1 a2)))
  /\ Pers.w p
     = (if decide (MortalityTable.w mt1 - (a1 - Z.min a1 a2) = 0)%Z
        then MortalityTable.w mt2 - (a2 - Z.min a1 a2)
        else Z.min (MortalityTable.w mt1 - (a1 - Z.min a1 a2))
                   (MortalityTable.w mt2 - (a2 - Z.min a1 a2)))%Z.
Proof.
  rewrite Pers_init_two. cbv zeta. intros H Ht.
  apply bind_Ok in H as (l1 & Hl & H).
  apply bind_Ok in H as (q1 & _ & H).
  apply bind_Ok in H as (e1 & _ & [= <-]). simpl in *.
  split; [|done].
  set (w := if decide (_ = 0%Z) then _ else _) in *.
  unfold py_range in Hl.
  replace (w - 0)%Z with (Z.of_nat (Z.to_nat w)) in Hl by lia.
  change 0%Z with (Z.of_nat 0) in Hl at 1.
  apply l_x_fold_entries in Hl as [_ Hent]; [|lia].
  rewrite py_getitem_nonneg by lia.
  rewrite (Hent (Z.to_nat t)) by lia.
  rewrite Z2Nat.id by lia. do 2 f_equal.
  rewrite py_slice_from_nonneg by lia. rewrite lookup_drop.
  unfold Spec.lx_or_0.
  destruct (decide (0 <= t + (a1 - Z.min a1 a2))%Z); [|lia].
  do 2 f_equal. lia.
Qed.

Lemma Pers_two_lives_witness :
  exists mt1 mt2 p,
    MortalityTable.of_l_x [num 10; num 5; num 2; 0] = Ok mt1
    /\ MortalityTable.of_l_x [num 8; num 4; 0] = Ok mt2
    /\ Pers.init [mt1; mt2] [41; 40]%Z = Ok p
    /\ py_getitem (Pers.l_x p) 0
       = Ok (Spec.lx_or_0 (MortalityTable.l_x mt1) (0 + (41 - Z.min 41 40))
             * Spec.lx_or_0 (MortalityTable.l_x mt2) (0 + (40 - Z.min 41 40)))
    /\ Pers.w p
       = (if decide (MortalityTable.w mt1 - (41 - Z.min 41 40) = 0)%Z
          then MortalityTable.w mt2 - (40 - Z.min 41 40)
          else Z.min (MortalityTable.w mt1 - (41 - Z.min 41 40))
                     (MortalityTable.w mt2 - (40 - Z.min 41 40)))%Z.
Proof.
  do 3 eexists. split; [vm_compute; reflexivity|].
  split; [vm_compute; reflexivity|].
  split; [vm_compute; reflexivity|].
  apply Pers_two_lives; [vm_compute; reflexivity | vm_compute; done].
Defined.

(** ** Death rates and life expectancy of the joint model *)

Lemma q_x_step_inv (lx lx1 : Qc) (q : list Qc) st :
  Pers.q_x_step (lx, q) lx1 = Ok st ->
  st = (lx1, q ++ [if decide (0 < lx) then (lx - lx1) * num 1000 / lx
                   else 1]).
Proof.
  unfold Pers.q_x_step. intros H. apply bind_Ok in H as (v & Hv & [= <-]).
  destruct (decide (0 < lx)); [|by injection Hv as <-].
  by apply py_div_Ok in Hv as [_ ->].
Qed.

Lemma q_x_fold (rest : list Qc) (lx : Qc) (q0 : list Qc) last q :
  foldlM Pers.q_x_step (lx, q0) rest = Ok (last, q) ->
  exists q', q = q0 ++ q'
    /\ length q' = length rest
    /\ forall (t : nat) a b,
         (lx :: rest) !! t = Some a -> rest !! t = Some b ->
         q' !! t = Some (if decide (0 < a) then (a - b) * num 1000 / a
                         else 1).
Proof.
  revert lx q0. induction rest as [|lx1 rest IH]; intros lx q0.
  - simpl. intros [= _ <-]. exists []. rewrite app_nil_r.
    split; [done|]. split; done.
  - rewrite foldlM_cons. intros H.
    apply bind_Ok in H as (st & Hstep & H).
    apply q_x_step_inv in Hstep as ->.
    apply IH in H as (q' & -> & Hlen & Hent).
    eexists. rewrite <- app_assoc. split; [reflexivity|].
    split; [simpl; lia|].
    intros [|t] a b Ha Hb; simpl in *.
    + by injection Ha as <-; injection Hb as <-.
    + by apply Hent.
Qed.

(** The death rates that the loop over [self.l_x[1:]] leaves: one rate for
    each pair of consecutive survivor counts, the deaths per mille of the
    survivors, or 1 where nobody is left. *)
Lemma calc_q_x_entries (l q : list Qc) :
  Pers.calc_q_x l = Ok q ->
  length q = (length l - 1)%nat
  /\ forall (t : nat) a b, l !! t = Some a -> l !! S t = Some b ->
       q !! t = Some (if decide (0 < a) then (a - b) * num 1000 / a
                      else 1).
Proof.
  unfold Pers.calc_q_x. destruct l as [|lx rest].
  - intros [= <-]. split; done.
  - change (py_slice_from (lx :: rest) 1) with rest.
    destruct (foldlM Pers.q_x_step (lx, []) rest) as [[last q']|] eqn:E;
      [|done].
    intros [= <-]. apply q_x_fold in E as (q'' & -> & Hlen & Hent).
    simpl. split; [lia|]. exact Hent.
Qed.

(** In a joint model built by the constructor, [qx(t)] is the death rate
    between the stored counts [l_x[t]] and [l_x[t+1]]. *)
Theorem Pers_qx_entry tables age_list (p : Pers.inst) (t : Z) (a b : Qc) :
  Pers.init tables age_list = Ok p ->
  (0 <= t)%Z ->
  Pers.l_x p !! Z.to_nat t = Some a ->
  Pers.l_x p !! S (Z.to_nat t) = Some b ->
  Pers.qx p t
  = Ok (if decide (0 < a) then (a - b) * num 1000 / a else 1).
Proof.
  unfold Pers.init. intros H Ht Ha Hb.
  apply bind_Ok in H as (age_min & _ & H).
  apply bind_Ok in H as ([w1 loc1] & _ & H).
  apply bind_Ok in H as (mt0 & _ & H).
  apply bind_Ok in H as (os0 & _ & H).
  apply bind_Ok in H as (loc2 & _ & H).
  apply bind_Ok in H as (l1 & _ & H).
  apply bind_Ok in H as (q1 & Hq & H).
  apply bind_Ok in H as (e1 & _ & [= <-]). simpl in *.
  destruct (calc_q_x_entries l1 q1 Hq) as [_ Hent].
  unfold Pers.qx. simpl. rewrite accessor_nonneg by done.
  by rewrite (Hent _ _ _ Ha Hb).
Qed.

Lemma Pers_qx_entry_witness :
  exists p, Pers.init [Sample.table_inst] [0%Z] = Ok p
    /\ Pers.qx p 1
       = Ok (if decide (0 < num 500) then (num 500 - 0) * num 1000 / num 500
             else 1).
Proof.
  eexists. split; [vm_compute; reflexivity|].
  apply (Pers_qx_entry [Sample.table_inst] [0%Z] _ 1 (num 500) 0);
    [vm_compute; reflexivity | lia | compute_done | compute_done].
Defined.

Lemma e_x_step_inv (l : list Qc) (s : Qc) (e : list Qc) (g : Z) st :
  Pers.e_x_step l (s, e) g = Ok st ->
  exists lg, py_getitem l g = Ok lg
    /\ st = (s - lg, e ++ [if decide (0 < lg) then half + (s - lg) / lg
                           else half]).
Proof.
  unfold Pers.e_x_step. intros H. apply bind_Ok in H as (lg & Hlg & H).
  apply bind_Ok in H as (v & Hv & [= <-]). exists lg. split; [done|].
  destruct (decide (0 < lg)); [|by injection Hv as <-].
  apply bind_Ok in Hv as (r & Hr & [= <-]).
  by apply py_div_Ok in Hr as [_ ->].
Qed.

(** The loop over [range(0, len(self.l_x) - 1)] only appends to
    [self.e_x]; the entry for age [a + k] divides what is left of [sum_lx]
    after the counts of the ages [a], ..., [a + k] have been subtracted from
    it one after the other. *)
Lemma e_x_fold (l : list Qc) (n a : nat) (s : Qc) (e : list Qc) s' e1 :
  foldlM (Pers.e_x_step l) (s, e) (seqZ (Z.of_nat a) (Z.of_nat n))
  = Ok (s', e1) ->
  exists e', e1 = e ++ e'
    /\ length e' = n
    /\ forall (k : nat) lg, (k < n)%nat -> l !! (a + k)%nat = Some lg ->
         e' !! k
         = Some (if decide (0 < lg)
                 then half + foldl Qcminus s (take (S k) (drop a l)) / lg
                 else half).
Proof.
  revert a s e. induction n as [|n IH]; intros a s e.
  - simpl. intros [= _ <-]. exists []. rewrite app_nil_r.
    split; [done|]. split; [done|]. intros k lg Hk. lia.
  - rewrite seqZ_cons by lia. rewrite foldlM_cons. intros H.
    apply bind_Ok in H as (st & Hstep & H).
    apply e_x_step_inv in Hstep as (la & Hla & ->).
    rewrite py_getitem_nonneg in Hla by lia. rewrite Nat2Z.id in Hla.
    destruct (l !! a) as [la'|] eqn:Ea; [|done]. injection Hla as ->.
    replace (Z.succ (Z.of_nat a)) with (Z.of_nat (S a)) in H by lia.
    replace (Z.pred (Z.of_nat (S n))) with (Z.of_nat n) in H by lia.
    apply IH in H as (e' & -> & Hlen & Hent).
    eexists. rewrite <- app_assoc. split; [reflexivity|].
    split; [simpl; lia|].
    intros [|k] lg Hk Hlg.
    + rewrite Nat.add_0_r, Ea in Hlg. injection Hlg as <-.
      by rewrite (drop_S _ _ _ Ea).
    + simpl. replace (a + S k)%nat with (S a + k)%nat in Hlg by lia.
      rewrite (Hent k lg) by (done || lia).
      by rewrite (drop_S _ _ _ Ea).
Qed.

(** The life expectancies that the loop leaves: for each age [g] before the
    last entry, [0.5] plus what is left of [sum(l_x[0:-1])] after
    [l_x[0]], ..., [l_x[g]] have been subtracted from it in turn, divided by
    [l_x[g]]; [0.5] alone where nobody is left. *)
Lemma calc_e_x_entries (l e : list Qc) :
  Pers.calc_e_x l = Ok e ->
  length e = (length l - 1)%nat
  /\ forall (g : nat) lg, (S g < length l)%nat -> l !! g = Some lg ->
       e !! g
       = Some (if decide (0 < lg)
               then half + foldl Qcminus (py_sum (py_slice_but_last l))
                                 (take (S g) l) / lg
               else half).
Proof.
  destruct (decide (l = [])) as [->|Hne].
  { intros [= <-]. split; [done|]. intros g lg Hg. simpl in Hg. lia. }
  assert (0 < length l)%nat by (destruct l; [done|simpl; lia]).
  unfold Pers.calc_e_x, py_range, py_len.
  replace (Z.of_nat (length l) - 1 - 0)%Z
    with (Z.of_nat (length l - 1)) by lia.
  change 0%Z with (Z.of_nat 0) at 1.
  destruct (foldlM _ _ _) as [[s' e1]|] eqn:E; [|done].
  intros [= <-]. apply e_x_fold in E as (e' & -> & Hlen & Hent).
  simpl. split; [done|].
  intros g lg Hg Hlg. rewrite (Hent g lg) by (done || lia).
  by rewrite drop_0.
Qed.

(** In a joint model built by the constructor, [ex(g)] at an age [g] before
    the last entry is [0.5 + r / l_x[g]], where [r] is what is left of
    [sum(l_x[0:-1])] after [l_x[0]], ..., [l_x[g]] have been subtracted from
    it one after the other; it is [0.5] where [l_x[g]] is not positive. *)
Theorem Pers_ex_entry tables age_list (p : Pers.inst) (g : Z) (lg : Qc) :
  Pers.init tables age_list = Ok p ->
  (0 <= g)%Z -> (g + 1 < py_len (Pers.l_x p))%Z ->
  Pers.l_x p !! Z.to_nat g = Some lg ->
  Pers.ex p g
  = Ok (if decide (0 < lg)
        then half + foldl Qcminus (py_sum (py_slice_but_last (Pers.l_x p)))
                          (take (S (Z.to_nat g)) (Pers.l_x p)) / lg
        else half).
Proof.
  unfold Pers.init, py_len. intros H Hg Hlen Hlg.
  apply bind_Ok in H as (age_min & _ & H).
  apply bind_Ok in H as ([w1 loc1] & _ & H).
  apply bind_Ok in H as (mt0 & _ & H).
  apply bind_Ok in H as (os0 & _ & H).
  apply bind_Ok in H as (loc2 & _ & H).
  apply bind_Ok in H as (l1 & _ & H).
  apply bind_Ok in H as (q1 & _ & H).
  apply bind_Ok in H as (e1 & He & [= <-]). simpl in *.
  destruct (calc_e_x_entries l1 e1 He) as [_ Hent].
  unfold Pers.ex. simpl. rewrite accessor_nonneg by done.
  by rewrite (Hent _ lg) by (done || lia).
Qed.

Lemma Pers_ex_entry_witness :
  exists p, Pers.init [Sample.table_inst] [0%Z] = Ok p
    /\ Pers.ex p 1
       = Ok (if decide (0 < num 500)
             then half + foldl Qcminus
                           (py_sum (py_slice_but_last (Pers.l_x p)))
                           (take (S (Z.to_nat 1)) (Pers.l_x p))
                         / num 500
             else half).
Proof.
  eexists. split; [vm_compute; reflexivity|].
  apply (Pers_ex_entry [Sample.table_inst] [0%Z] _ 1 (num 500));
    [vm_compute; reflexivity | lia | vm_compute; reflexivity | compute_done].
Defined.

(** * Properties of the dispatching helper *)

Section AnnuityDispatch.

Variable pow_half : Qc -> Qc.

Lemma inspect_plain (z : Z) :
  (0 <= z)%Z ->
  Annuity.inspect (Annuity.MInt z) []
  = Ok (Annuity.MInt z, Annuity.ATuple [], false, false, None).
Proof.
  intros Hz. unfold Annuity.inspect. simpl.
  by rewrite bool_decide_true by done.
Qed.

Lemma inspect_deferral (z : Z) :
  (z < 0)%Z ->
  Annuity.inspect (Annuity.MInt z) []
  = Ok (Annuity.MInt 1, Annuity.AFalse, false, true, Some (z * -1)%Z).
Proof.
  intros Hz. unfold Annuity.inspect. simpl.
  rewrite bool_decide_false by lia. simpl.
  by rewrite bool_decide_true by done.
Qed.

Lemma inspect_list (items : list Annuity.item) :
  Annuity.inspect (Annuity.MList items) []
  = Ok (Annuity.MInt 1, Annuity.ATuple [Annuity.MList items],
        true, false, None).
Proof. reflexivity. Qed.

(** Whenever the first block sets [incr], it leaves in [args] a tuple that
    starts with a list: [args[0]] is read from no other shape. *)
Lemma inspect_incr_args m args m1 a1 deff t :
  Annuity.inspect m args = Ok (m1, a1, true, deff, t) ->
  exists items rest, a1 = Annuity.ATuple (Annuity.MList items :: rest).
Proof.
  unfold Annuity.inspect.
  destruct m as [z|items], args as [|[z0|l0] [|[z1|l1] [|a2 args]]];
    simpl; repeat case_bool_decide; simpl;
    try discriminate; try lia;
    intros [= <- <- <- <-]; by do 2 eexists.
Qed.

(** The four level annuities: with no deferral and [m >= 0] payments a
    year, [annuity] builds the single-life model and returns [aaxn] or [axn]
    for a term [n] other than 99, and [aax] or [ax] for [n = 99] or a string
    [n]; [p = 1] selects the annuity-immediate, any other [p] the
    annuity-due. *)
Theorem annuity_level mt i (x : Z) (n : Annuity.narg) (p m : Z) pers act :
  (0 <= m)%Z ->
  Pers.of_table_single mt = Ok pers ->
  Actuarial.init pow_half i pers = Ok act ->
  Annuity.annuity pow_half mt i x n p (Annuity.MInt m) []
  = (Annuity.printed p,
     v ← match n with
         | Annuity.NInt z =>
             if bool_decide (z = 99%Z)
             then (if bool_decide (p = 1%Z) then Actuarial.ax act x m
                   else Actuarial.aax act x m)
             else (if bool_decide (p = 1%Z) then Actuarial.axn act x z m
                   else Actuarial.aaxn act x z m)
         | Annuity.NStr _ =>
             if bool_decide (p = 1%Z) then Actuarial.ax act x m
             else Actuarial.aax act x m
         end;
     Ok (Annuity.RVal (Actuarial.PNum v))).
Proof.
  intros Hm Hp Ha. unfold Annuity.annuity.
  rewrite inspect_plain by done. cbv iota beta.
  unfold Annuity.dispatch. rewrite Hp, bind_Ok_l, Ha, bind_Ok_l.
  destruct n as [z|s]; [destruct (bool_decide (z = 99%Z))|];
    destruct (bool_decide (p = 1%Z)); reflexivity.
Qed.

(** A request for arithmetically increasing payments, [m = [..., 'a',
    ...]], is answered with the level annuity of one payment a year: the
    flag it sets is never read. *)
Theorem annuity_arithmetic_is_level mt i (x : Z) (n : Annuity.narg) (p : Z)
    (items : list Annuity.item) :
  Annuity.IStr "a" ∈ items ->
  Annuity.annuity pow_half mt i x n p (Annuity.MList items) []
  = Annuity.annuity pow_half mt i x n p (Annuity.MInt 1) [].
Proof.
  intros Ha. unfold Annuity.annuity.
  rewrite inspect_list, inspect_plain by lia. cbv iota beta.
  change (Annuity.args_head (Annuity.ATuple [Annuity.MList items]))
    with (Ok items : result (list Annuity.item)).
  cbv iota beta. by rewrite bool_decide_true by done.
Qed.

(** A deferred temporary annuity cannot be computed: with a term [n]
    other than 99 and a negative [m] (a deferral of [-m] years), the call
    reaches [taaxn] or [taxn] with one argument too many and raises
    [TypeError]. *)
Theorem annuity_deferred_temporary_raises mt i (x n p m : Z) pers act :
  (m < 0)%Z -> n <> 99%Z ->
  Pers.of_table_single mt = Ok pers ->
  Actuarial.init pow_half i pers = Ok act ->
  Annuity.annuity pow_half mt i x (Annuity.NInt n) p (Annuity.MInt m) []
  = (Annuity.printed p, Raise TypeError).
Proof.
  intros Hm Hn Hp Ha. unfold Annuity.annuity.
  rewrite inspect_deferral by done. cbv iota beta.
  unfold Annuity.dispatch. rewrite Hp, bind_Ok_l, Ha, bind_Ok_l.
  rewrite bool_decide_false by done.
  destruct (bool_decide (p = 1%Z)); reflexivity.
Qed.

(** A deferred whole-life annuity: with [n = 99] or a string [n] and a
    negative [m], [annuity] returns [taax] or [tax] deferred by [-m] years,
    paid once a year. *)
Theorem annuity_deferred_whole_life mt i (x : Z) (n : Annuity.narg) (p m : Z)
    pers act :
  (m < 0)%Z ->
  match n with Annuity.NInt z => z = 99%Z | Annuity.NStr _ => True end ->
  Pers.of_table_single mt = Ok pers ->
  Actuarial.init pow_half i pers = Ok act ->
  Annuity.annuity pow_half mt i x n p (Annuity.MInt m) []
  = (Annuity.printed p,
     v ← (if bool_decide (p = 1%Z) then Actuarial.tax act x (m * -1) 1
          else Actuarial.taax act x (m * -1) 1);
     Ok (Annuity.RVal (Actuarial.PNum v))).
Proof.
  intros Hm Hn Hp Ha. unfold Annuity.annuity.
  rewrite inspect_deferral by done. cbv iota beta.
  unfold Annuity.dispatch. rewrite Hp, bind_Ok_l, Ha, bind_Ok_l.
  destruct n as [z|s]; [rewrite bool_decide_true by done|];
    destruct (bool_decide (p = 1%Z)); reflexivity.
Qed.

(** A request for geometrically increasing payments, [m = ['g', q]],
    never yields a number: for [p = 1] it reaches a placeholder and returns
    [None], otherwise it calls a method that does not exist and raises
    [AttributeError]. *)
Theorem annuity_geometric_has_no_value mt i (x : Z) (n : Annuity.narg)
    (p : Z) (items : list Annuity.item) (q : Annuity.item) pers act :
  Annuity.IStr "a" ∉ items -> Annuity.IStr "g" ∈ items ->
  py_getitem items 1 = Ok q ->
  Pers.of_table_single mt = Ok pers ->
  Actuarial.init pow_half i pers = Ok act ->
  Annuity.annuity pow_half mt i x n p (Annuity.MList items) []
  = (Annuity.printed p,
     if bool_decide (p = 1%Z) then Ok (Annuity.RVal Actuarial.PNone)
     else Raise AttributeError).
Proof.
  intros Hna Hg Hq Hp Ha. unfold Annuity.annuity.
  rewrite inspect_list. cbv iota beta.
  change (Annuity.args_head (Annuity.ATuple [Annuity.MList items]))
    with (Ok items : result (list Annuity.item)).
  cbv iota beta.
  rewrite bool_decide_false, bool_decide_true, Hq by done.
  unfold Annuity.dispatch. rewrite Hp, bind_Ok_l, Ha, bind_Ok_l.
  destruct n as [z|s]; [destruct (bool_decide (z = 99%Z))|];
    destruct (bool_decide (p = 1%Z)); reflexivity.
Qed.

(** A payment flag other than 0 and 1 is reported on the output and then
    treated like 0: the result is that of the annuity-due. *)
Theorem annuity_bad_payment_flag mt i (x : Z) (n : Annuity.narg) (p : Z)
    (m : Annuity.marg) (args : list Annuity.marg) sh :
  Annuity.inspect m args = Ok sh -> p <> 0%Z -> p <> 1%Z ->
  Annuity.annuity pow_half mt i x n p m args
  = ([Annuity.payment_error],
     (Annuity.annuity pow_half mt i x n 0 m args).2).
Proof.
  intros Hs Hp0 Hp1. unfold Annuity.annuity. rewrite Hs.
  destruct sh as [[[[m1 args1] incr] deff] t].
  unfold Annuity.printed.
  rewrite !(bool_decide_false (p = 1%Z)), !(bool_decide_false (p = 0%Z))
    by done.
  change (bool_decide (0%Z = 1%Z)) with false.
  change (bool_decide (0%Z = 0%Z)) with true. cbv iota.
  destruct incr; [|done].
  destruct (Annuity.args_head args1) as [items|e]; [|done].
  destruct (bool_decide (Annuity.IStr "a" ∈ items)); [done|].
  destruct (bool_decide (Annuity.IStr "g" ∈ items)); [|done].
  by destruct (py_getitem items 1).
Qed.

End AnnuityDispatch.

(** * The properties above at concrete inputs *)

Lemma Actuarial_init_rate_errors_witness :
  (forall age : Z, (0 <= age < 3)%Z ->
     Actuarial.rate_ok (Actuarial.store_rate (RateFloat 0)) age)
  /\ Actuarial.init Sample.pow_half_at_1 RateOther
       (Pers.of_table Sample.table_inst) = Raise TypeError
  /\ Actuarial.init Sample.pow_half_at_1 (RateFloat (- (1)))
       (Pers.of_table Sample.table_inst) = Raise ZeroDivisionError.
Proof.
  destruct (Actuarial_init_rate_errors Sample.pow_half_at_1 (RateFloat 0)
              (Pers.of_table Sample.table_inst)) as (H1 & H2 & H3).
  split; [|split].
  - apply H1. eexists. vm_compute. reflexivity.
  - apply H2. done.
  - apply H3. done.
Defined.

Lemma D_x_entry_witness :
  exists self,
    Actuarial.init Sample.pow_half_at_1 (RateFloat (num 1))
                   (Pers.of_table Sample.table_inst) = Ok self
    /\ exists i, Actuarial.call_rate (Actuarial.rate self) 1 = Ok i
         /\ 1 + i <> 0
         /\ Actuarial.Dx self 1 = Ok (py_pow (1 / (1 + i)) 1 * num 500).
Proof.
  eexists. split; [vm_compute; reflexivity|].
  apply (D_x_entry Sample.pow_half_at_1 (RateFloat (num 1))
           (Pers.of_table Sample.table_inst) _ 1 (num 500));
    [vm_compute; reflexivity | lia | compute_done].
Defined.

Lemma commutation_sequences_aligned_witness :
  exists self, Sample.act_of_table Sample.pow_half_at_1 = Ok self
    /\ length (Actuarial.D_x self)
       = length (Pers.l_x (Pers.of_table Sample.table_inst))
    /\ length (Actuarial.N_x self)
       = length (Pers.l_x (Pers.of_table Sample.table_inst))
    /\ length (Actuarial.C_x self)
       = length (Pers.l_x (Pers.of_table Sample.table_inst))
    /\ length (Actuarial.M_x self)
       = length (Pers.l_x (Pers.of_table Sample.table_inst))
    /\ Actuarial.as_pers self = Pers.of_table Sample.table_inst.
Proof.
  eexists. split; [vm_compute; reflexivity|].
  apply (commutation_sequences_aligned Sample.pow_half_at_1 (RateFloat 0)).
  vm_compute. reflexivity.
Defined.

Lemma stored_l_x_ends_with_zero_witness :
  exists mt, MortalityTable.of_l_x [num 1000; num 500] = Ok mt
    /\ py_getitem (MortalityTable.l_x mt) (-1) = Ok 0
    /\ ([num 1000; num 500] <> [] ->
        exists last, py_getitem [num 1000; num 500] (-1) = Ok last
          /\ MortalityTable.l_x mt
             = if decide (last = 0) then [num 1000; num 500]
               else [num 1000; num 500] ++ [0]).
Proof.
  eexists. split; [vm_compute; reflexivity|].
  apply (stored_l_x_ends_with_zero [num 1000; num 500] [] None (num 100)).
  vm_compute. reflexivity.
Defined.

Lemma l_x_compounds_from_q_x_witness :
  exists mt, MortalityTable.of_q_x [num 500; num 1000] = Ok mt
    /\ py_getitem (MortalityTable.l_x mt) 0 = Ok (num 100000)
    /\ forall (x : nat) (qx : Qc),
         MortalityTable.q_x mt !! x = Some qx ->
         exists a, MortalityTable.l_x mt !! x = Some a
           /\ MortalityTable.l_x mt !! S x = Some (a * (1 - qx / num 1000)).
Proof.
  eexists. split; [vm_compute; reflexivity|].
  apply (l_x_compounds_from_q_x [num 500; num 1000] None (num 100)).
  vm_compute. reflexivity.
Defined.

Lemma legacy_rates_all_kept_witness :
  MortalityTable.legacy_q_x [] (Some (2%Z, [num 3; num 4])) (num 50)
  = py_repeat 0 2 ++ ((fun v => v * num 50 / num 100) <$> [num 3; num 4])
    ++ (if decide (num 50 <> num 100) then [num 1000] else []).
Proof.
  apply (legacy_rates_all_kept [] 2 [num 3; num 4] (num 50)).
  repeat constructor; compute_done.
Defined.

Lemma legacy_rates_stop_at_1000_witness :
  MortalityTable.legacy_q_x []
    (Some (2%Z, [num 3] ++ num 1000 :: [num 7])) (num 100)
  = py_repeat 0 2 ++ ((fun u => u * num 100 / num 100) <$> [num 3])
    ++ [num 1000 * num 100 / num 100]
    ++ (if decide (num 100 <> num 100) then [num 1000] else []).
Proof.
  apply (legacy_rates_stop_at_1000 [] 2 [num 3] [num 7] (num 1000) (num 100));
    [repeat constructor; compute_done | compute_done].
Defined.

Lemma Pers_init_too_few_ages_witness :
  Pers.init [Sample.table_inst; Sample.table_inst] [40%Z] = Raise IndexError.
Proof.
  apply (Pers_init_too_few_ages [Sample.table_inst; Sample.table_inst]
           [40%Z]); [done | simpl; lia].
Defined.

Lemma annuity_level_witness :
  exists pers act,
    Pers.of_table_single Sample.table_inst = Ok pers
    /\ Actuarial.init Sample.pow_half_at_1 (RateFloat 0) pers = Ok act
    /\ Annuity.annuity Sample.pow_half_at_1 Sample.table_inst (RateFloat 0)
         0 (Annuity.NInt 1) 0 (Annuity.MInt 1) []
       = (Annuity.printed 0,
          v ← (if bool_decide (1%Z = 99%Z)
               then (if bool_decide (0%Z = 1%Z) then Actuarial.ax act 0 1
                     else Actuarial.aax act 0 1)
               else (if bool_decide (0%Z = 1%Z) then Actuarial.axn act 0 1 1
                     else Actuarial.aaxn act 0 1 1));
          Ok (Annuity.RVal (Actuarial.PNum v))).
Proof.
  do 2 eexists. split; [vm_compute; reflexivity|].
  split; [vm_compute; reflexivity|].
  eapply (annuity_level Sample.pow_half_at_1 Sample.table_inst (RateFloat 0)
           0 (Annuity.NInt 1) 0 1);
    [lia | vm_compute; reflexivity | vm_compute; reflexivity].
Defined.

Lemma annuity_arithmetic_is_level_witness :
  Annuity.annuity Sample.pow_half_at_1 Sample.table_inst (RateFloat 0)
    0 (Annuity.NInt 1) 0 (Annuity.MList [Annuity.IStr "a"]) []
  = Annuity.annuity Sample.pow_half_at_1 Sample.table_inst (RateFloat 0)
      0 (Annuity.NInt 1) 0 (Annuity.MInt 1) [].
Proof.
  apply (annuity_arithmetic_is_level Sample.pow_half_at_1 Sample.table_inst
           (RateFloat 0) 0 (Annuity.NInt 1) 0 [Annuity.IStr "a"]).
  compute_done.
Defined.

Lemma annuity_deferred_temporary_raises_witness :
  exists pers act,
    Pers.of_table_single Sample.table_inst = Ok pers
    /\ Actuarial.init Sample.pow_half_at_1 (RateFloat 0) pers = Ok act
    /\ Annuity.annuity Sample.pow_half_at_1 Sample.table_inst (RateFloat 0)
         0 (Annuity.NInt 1) 0 (Annuity.MInt (-2)) []
       = (Annuity.printed 0, Raise TypeError).
Proof.
  do 2 eexists. split; [vm_compute; reflexivity|].
  split; [vm_compute; reflexivity|].
  eapply (annuity_deferred_temporary_raises Sample.pow_half_at_1
            Sample.table_inst (RateFloat 0) 0 1 0 (-2));
    [lia | lia | vm_compute; reflexivity | vm_compute; reflexivity].
Defined.

Lemma annuity_deferred_whole_life_witness :
  exists pers act,
    Pers.of_table_single Sample.table_inst = Ok pers
    /\ Actuarial.init Sample.pow_half_at_1 (RateFloat 0) pers = Ok act
    /\ Annuity.annuity Sample.pow_half_at_1 Sample.table_inst (RateFloat 0)
         0 (Annuity.NStr "w") 0 (Annuity.MInt (-1)) []
       = (Annuity.printed 0,
          v ← (if bool_decide (0%Z = 1%Z)
               then Actuarial.tax act 0 (-1 * -1) 1
               else Actuarial.taax act 0 (-1 * -1) 1);
          Ok (Annuity.RVal (Actuarial.PNum v))).
Proof.
  do 2 eexists. split; [vm_compute; reflexivity|].
  split; [vm_compute; reflexivity|].
  eapply (annuity_deferred_whole_life Sample.pow_half_at_1 Sample.table_inst
           (RateFloat 0) 0 (Annuity.NStr "w") 0 (-1));
    [lia | done | vm_compute; reflexivity | vm_compute; reflexivity].
Defined.

Lemma annuity_geometric_has_no_value_witness :
  exists pers act,
    Pers.of_table_single Sample.table_inst = Ok pers
    /\ Actuarial.init Sample.pow_half_at_1 (RateFloat 0) pers = Ok act
    /\ Annuity.annuity Sample.pow_half_at_1 Sample.table_inst (RateFloat 0)
         0 (Annuity.NInt 1) 1
         (Annuity.MList [Annuity.IStr "g"; Annuity.INum (num 2)]) []
       = (Annuity.printed 1,
          if bool_decide (1%Z = 1%Z) then Ok (Annuity.RVal Actuarial.PNone)
          else Raise AttributeError).
Proof.
  do 2 eexists. split; [vm_compute; reflexivity|].
  split; [vm_compute; reflexivity|].
  eapply (annuity_geometric_has_no_value Sample.pow_half_at_1
           Sample.table_inst (RateFloat 0) 0 (Annuity.NInt 1) 1
           [Annuity.IStr "g"; Annuity.INum (num 2)]
           (Annuity.INum (num 2)));
    [compute_done | compute_done | reflexivity
    | vm_compute; reflexivity | vm_compute; reflexivity].
Defined.

Lemma annuity_bad_payment_flag_witness :
  Annuity.annuity Sample.pow_half_at_1 Sample.table_inst (RateFloat 0)
    0 (Annuity.NInt 1) 5 (Annuity.MInt 1) []
  = ([Annuity.payment_error],
     (Annuity.annuity Sample.pow_half_at_1 Sample.table_inst (RateFloat 0)
        0 (Annuity.NInt 1) 0 (Annuity.MInt 1) []).2).
Proof.
  apply (annuity_bad_payment_flag Sample.pow_half_at_1 Sample.table_inst
           (RateFloat 0) 0 (Annuity.NInt 1) 5 (Annuity.MInt 1) []
           (Annuity.MInt 1, Annuity.ATuple [], false, false, None));
    [reflexivity | lia | lia].
Defined.

